(** * TCA9534 / PCA9534 I2C GPIO expander driver (TCA9534.py)

    A shallow embedding of the CircuitPython driver.  Python integers are
    [Z] with the bit operations of [Z] (which agree with Python's on
    negative numbers: both are infinite two's complement).  A method is a
    computation over the one expander object; an exception leaves the
    object as it was when the exception was raised, exactly as in Python. *)

From Stdlib Require Import ZArith List String Bool Lia.
From Stdlib Require Import Strings.Byte.
Import ListNotations.
Open Scope Z_scope.

(** ** Exceptions and results *)

Inductive exn : Type :=
| OSError          (* an I2C transaction failed *)
| AssertionError
| AttributeError
| TypeError
| ValueError.

Inductive result (A : Type) : Type :=
| Ok (a : A)
| Raise (e : exn).
Arguments Ok {A} a.
Arguments Raise {A} e.

(** ** Computations that mutate an object and may raise

    The object is threaded through; when an exception is raised the rest
    of the computation is skipped and the object stays as it is. *)

Definition Exec (S A : Type) : Type := S -> result A * S.

Definition ret {S A} (a : A) : Exec S A := fun s => (Ok a, s).

Definition bind {S A B} (m : Exec S A) (k : A -> Exec S B) : Exec S B :=
  fun s =>
    match m s with
    | (Ok a, s') => k a s'
    | (Raise e, s') => (Raise e, s')
    end.

Definition lift {S A} (r : result A) : Exec S A := fun s => (r, s).

Definition raise {S A} (e : exn) : Exec S A := lift (Raise e).

Declare Scope exec_scope.
Delimit Scope exec_scope with exec.
Notation "x <- c1 ;; c2" := (bind c1 (fun x => c2))
  (at level 61, c1 at next level, right associativity) : exec_scope.
Notation "c1 ;; c2" := (bind c1 (fun _ => c2))
  (at level 61, right associativity) : exec_scope.
Open Scope exec_scope.

(** ** Register addresses (module constants) *)

Definition _TCA9534_DEFAULT_I2C_ADDR : Z := 0x20.
Definition _TCA9534_REGISTER_INPUT_PORT : Z := 0x00.
Definition _TCA9534_REGISTER_OUTPUT_PORT : Z := 0x01.
Definition _TCA9534_REGISTER_INVERSION : Z := 0x02.
Definition _TCA9534_REGISTER_CONFIGURATION : Z := 0x03.

(** ** Python integer and bytearray primitives *)

(** [a << n]; Python raises ValueError on a negative shift count. *)
Definition py_lshift (a n : Z) : result Z :=
  if n <? 0 then Raise ValueError else Ok (Z.shiftl a n).

(** [a >> n]; Python raises ValueError on a negative shift count. *)
Definition py_rshift (a n : Z) : result Z :=
  if n <? 0 then Raise ValueError else Ok (Z.shiftr a n).

(** Truth value of an integer in a condition. *)
Definition py_truthy (a : Z) : bool := negb (a =? 0).

(** An element of a bytearray must be in range(0, 256), both when the
    bytearray is built from a list and when an element is assigned. *)
Definition is_byte (v : Z) : bool := (0 <=? v) && (v <? 256).

Definition bytearray (l : list Z) : result (list Z) :=
  if forallb is_byte l then Ok l else Raise ValueError.

Definition Z_of_byte (b : byte) : Z := Z.of_N (Byte.to_N b).

(** ** The bus device (adafruit_bus_device.i2c_device.I2CDevice)

    The driver only uses two operations of the device object, each inside
    a [with self.i2c_device as i2c:] block.  Both may fail; the buffer that
    [write_then_readinto] fills has length one everywhere in this driver,
    so a successful read yields one byte. *)

Class I2CDevice (D : Type) : Type := {
  write : D -> list Z -> D * result unit;
  write_then_readinto : D -> list Z -> D * result byte
}.

(** What was asked of the bus, and what came back. *)
Inductive transaction : Type :=
| I2CWrite (buffer : list Z) (r : result unit)
| I2CWriteThenReadinto (out_buffer : list Z) (r : result byte).

(** Python's [digitalio.Direction]; the setter accepts any object, and
    [NotADirection] stands for every value that is neither member. *)
Inductive Direction : Type := INPUT | OUTPUT | NotADirection.

(** [DigitalInOut]: the pin number; [_tca] is the one shared expander
    object that every method below runs on. *)
Record DigitalInOut : Type := { _pin : Z }.

Section Driver.

Context {D : Type} `{I2CDevice D}.

(** The expander object.  [_output], [_inversion] and [_configuration]
    are each the single element of a one-element bytearray; [log] is the
    history of bus transactions issued through [i2c_device]. *)
Record TCA9534 : Type := {
  i2c_device : D;
  log : list transaction;
  _output : Z;
  _inversion : Z;
  _configuration : Z
}.

(** A method of the expander (or of one of its pins) is a computation
    on the expander object. *)
Definition M (A : Type) : Type := Exec TCA9534 A.

Definition with_bus (s : TCA9534) (d : D) (t : transaction) : TCA9534 :=
  {| i2c_device := d; log := log s ++ [t];
     _output := _output s; _inversion := _inversion s;
     _configuration := _configuration s |}.

Definition with_output (s : TCA9534) (v : Z) : TCA9534 :=
  {| i2c_device := i2c_device s; log := log s;
     _output := v; _inversion := _inversion s;
     _configuration := _configuration s |}.

Definition with_inversion (s : TCA9534) (v : Z) : TCA9534 :=
  {| i2c_device := i2c_device s; log := log s;
     _output := _output s; _inversion := v;
     _configuration := _configuration s |}.

Definition with_configuration (s : TCA9534) (v : Z) : TCA9534 :=
  {| i2c_device := i2c_device s; log := log s;
     _output := _output s; _inversion := _inversion s;
     _configuration := v |}.

(** [with self.i2c_device as i2c: i2c.write(buf)] *)
Definition i2c_write (buf : list Z) : M unit :=
  fun s =>
    let (d, r) := write (i2c_device s) buf in
    (r, with_bus s d (I2CWrite buf r)).

(** [with self.i2c_device as i2c: i2c.write_then_readinto(out, in_buf)],
    yielding the byte the device put in the one-element [in_buf]; on
    failure nothing is yielded and the buffer keeps its content. *)
Definition i2c_write_then_readinto (out : list Z) : M byte :=
  fun s =>
    let (d, r) := write_then_readinto (i2c_device s) out in
    (r, with_bus s d (I2CWriteThenReadinto out r)).

(** [self._output[0] = v] and its two siblings. *)
Definition setitem_output (v : Z) : M unit :=
  fun s => if is_byte v then (Ok tt, with_output s v)
           else (Raise ValueError, s).

Definition setitem_inversion (v : Z) : M unit :=
  fun s => if is_byte v then (Ok tt, with_inversion s v)
           else (Raise ValueError, s).

Definition setitem_configuration (v : Z) : M unit :=
  fun s => if is_byte v then (Ok tt, with_configuration s v)
           else (Raise ValueError, s).

(** [self._output[0]] and its two siblings. *)
Definition getitem_output : M Z := fun s => (Ok (_output s), s).
Definition getitem_inversion : M Z := fun s => (Ok (_inversion s), s).
Definition getitem_configuration : M Z :=
  fun s => (Ok (_configuration s), s).

(** *** Attribute lookup on the expander object

    The instance attributes are the four that [__init__] assigns; the
    class attributes are its methods.  The class defines no
    [__getattr__], so any other name raises AttributeError. *)

Inductive attr : Type :=
| AttrDevice (d : D)
| AttrByteArray (b : Z)
| AttrMethod (name : string).

Definition tca_methods : list string :=
  ["__init__"; "read_gpio"; "write_gpio"; "set_iodir"; "get_iodir";
   "get_inv"; "set_inv"; "get_pin"; "write_pin"; "read_pin"]%string.

Definition getattr (name : string) : M attr :=
  fun self =>
    if (name =? "i2c_device")%string then
      (Ok (AttrDevice (i2c_device self)), self)
    else if (name =? "_output")%string then
      (Ok (AttrByteArray (_output self)), self)
    else if (name =? "_inversion")%string then
      (Ok (AttrByteArray (_inversion self)), self)
    else if (name =? "_configuration")%string then
      (Ok (AttrByteArray (_configuration self)), self)
    else if existsb (String.eqb name) tca_methods then
      (Ok (AttrMethod name), self)
    else (Raise AttributeError, self).

(** [a | m] and [a & m] with an attribute of the object on the left and
    an integer on the right: no attribute of the object is an integer,
    and neither a device, a bytearray nor a bound method supports these
    operators with an int. *)
Definition attr_or (a : attr) (m : Z) : result Z := Raise TypeError.
Definition attr_and (a : attr) (m : Z) : result Z := Raise TypeError.

(** *** class TCA9534 *)

(** [i2c_dev] is the [I2CDevice(i2c, address)] object the constructor
    builds from its first two arguments; the three caches start as
    [bytearray([0])]. *)
Definition __init__ (i2c_dev : D) (reset : bool) : result unit * TCA9534 :=
  let self := {| i2c_device := i2c_dev; log := [];
                 _output := 0; _inversion := 0; _configuration := 0 |} in
  ((if reset then
      b <- lift (bytearray [_TCA9534_REGISTER_CONFIGURATION; 0xFF]) ;;
      i2c_write b ;;
      b <- lift (bytearray [_TCA9534_REGISTER_INVERSION; 0x00]) ;;
      i2c_write b ;;
      b <- lift (bytearray [_TCA9534_REGISTER_OUTPUT_PORT; 0xFF]) ;;
      i2c_write b
    else ret tt) ;;
   b <- lift (bytearray [_TCA9534_REGISTER_OUTPUT_PORT]) ;;
   r <- i2c_write_then_readinto b ;;
   (fun s => (Ok tt, with_output s (Z_of_byte r))) ;;
   b <- lift (bytearray [_TCA9534_REGISTER_INVERSION]) ;;
   r <- i2c_write_then_readinto b ;;
   (fun s => (Ok tt, with_inversion s (Z_of_byte r))) ;;
   b <- lift (bytearray [_TCA9534_REGISTER_CONFIGURATION]) ;;
   r <- i2c_write_then_readinto b ;;
   (fun s => (Ok tt, with_configuration s (Z_of_byte r)))) self.

Definition read_gpio : M Z :=
  b <- lift (bytearray [_TCA9534_REGISTER_INPUT_PORT]) ;;
  buf <- i2c_write_then_readinto b ;;
  ret (Z_of_byte buf).

Definition write_gpio (val : Z) : M unit :=
  setitem_output (Z.land val 0xFF) ;;
  o <- getitem_output ;;
  b <- lift (bytearray [_TCA9534_REGISTER_OUTPUT_PORT; o]) ;;
  i2c_write b.

Definition set_iodir (val : Z) : M unit :=
  setitem_configuration (Z.land val 0xFF) ;;
  c <- getitem_configuration ;;
  b <- lift (bytearray [_TCA9534_REGISTER_CONFIGURATION; c]) ;;
  i2c_write b.

Definition get_iodir : M Z := getitem_configuration.

Definition get_inv : M Z := getitem_inversion.

Definition set_inv (val : Z) : M unit :=
  setitem_inversion (Z.land val 0xFF) ;;
  i <- getitem_inversion ;;
  b <- lift (bytearray [_TCA9534_REGISTER_INVERSION; i]) ;;
  i2c_write b.

Definition get_pin (pin : Z) : M DigitalInOut :=
  if (0 <=? pin) && (pin <=? 7) then ret {| _pin := pin |}
  else raise AssertionError.

(** [self.output] is looked up on the expander object. *)
Definition write_pin (pin : Z) (val : bool) : M unit :=
  if val then
    o <- getattr "output" ;;
    m <- lift (py_lshift 1 pin) ;;
    v <- lift (attr_or o m) ;;
    write_gpio v
  else
    o <- getattr "output" ;;
    m <- lift (py_lshift 1 pin) ;;
    v <- lift (attr_and o (Z.lnot m)) ;;
    write_gpio v.

Definition read_pin (pin : Z) : M Z :=
  g <- read_gpio ;;
  r <- lift (py_rshift g pin) ;;
  ret (Z.land r 0x1).

(** *** class DigitalInOut *)

Definition switch_to_output (self : DigitalInOut) (value : bool) : M unit :=
  (if value then
     o <- getitem_output ;;
     m <- lift (py_lshift 1 (_pin self)) ;;
     write_gpio (Z.lor o m)
   else
     o <- getitem_output ;;
     m <- lift (py_lshift 1 (_pin self)) ;;
     write_gpio (Z.land o (Z.lnot m))) ;;
  c <- getitem_configuration ;;
  m <- lift (py_lshift 1 (_pin self)) ;;
  b <- lift (py_rshift (Z.land c m) (_pin self)) ;;
  m' <- lift (py_lshift 1 (_pin self)) ;;
  set_iodir (Z.land b (Z.lnot m')).

Definition switch_to_input (self : DigitalInOut) : M unit :=
  c <- getitem_configuration ;;
  m <- lift (py_lshift 1 (_pin self)) ;;
  b <- lift (py_rshift (Z.land c m) (_pin self)) ;;
  m' <- lift (py_lshift 1 (_pin self)) ;;
  set_iodir (Z.lor b m').

(** The [value] property. *)
Definition value (self : DigitalInOut) : M Z :=
  g <- read_gpio ;;
  m <- lift (py_lshift 1 (_pin self)) ;;
  lift (py_rshift (Z.land g m) (_pin self)).

Definition value_setter (self : DigitalInOut) (val : bool) : M unit :=
  if val then
    o <- getitem_output ;;
    m <- lift (py_lshift 1 (_pin self)) ;;
    write_gpio (Z.lor o m)
  else
    o <- getitem_output ;;
    m <- lift (py_lshift 1 (_pin self)) ;;
    write_gpio (Z.land o (Z.lnot m)).

(** The [direction] property. *)
Definition direction (self : DigitalInOut) : M Direction :=
  c <- getitem_configuration ;;
  m <- lift (py_lshift 1 (_pin self)) ;;
  b <- lift (py_rshift (Z.land c m) (_pin self)) ;;
  if py_truthy b then ret INPUT else ret OUTPUT.

Definition direction_setter (self : DigitalInOut) (val : Direction) : M unit :=
  match val with
  | INPUT =>
      c <- getitem_configuration ;;
      m <- lift (py_lshift 1 (_pin self)) ;;
      b <- lift (py_rshift (Z.land c m) (_pin self)) ;;
      m' <- lift (py_lshift 1 (_pin self)) ;;
      set_iodir (Z.lor b m')
  | OUTPUT =>
      c <- getitem_configuration ;;
      m <- lift (py_lshift 1 (_pin self)) ;;
      b <- lift (py_rshift (Z.land c m) (_pin self)) ;;
      m' <- lift (py_lshift 1 (_pin self)) ;;
      set_iodir (Z.land b (Z.lnot m'))
  | NotADirection => raise ValueError
  end.

(** The [invert_polarity] property.  In Python the shifts bind tighter
    than [&], so the source expression
    [self._tca._inversion[0] & (1<<self._pin) >> self._pin]
    is [_inversion[0] & ((1 << pin) >> pin)]. *)
Definition invert_polarity (self : DigitalInOut) : M Z :=
  i <- getitem_inversion ;;
  m <- lift (py_lshift 1 (_pin self)) ;;
  k <- lift (py_rshift m (_pin self)) ;;
  ret (Z.land i k).

Definition invert_polarity_setter (self : DigitalInOut) (val : bool) : M unit :=
  if val then
    i <- get_inv ;;
    m <- lift (py_lshift 1 (_pin self)) ;;
    set_inv (Z.lor i m)
  else
    i <- get_inv ;;
    m <- lift (py_lshift 1 (_pin self)) ;;
    set_inv (Z.land i (Z.lnot m)).

(** *** Client programs

    A client holds the expander and pin handles obtained from it, calls
    methods one after the other and may catch what they raise. *)

Inductive call : Type :=
| Call_read_gpio
| Call_write_gpio (val : Z)
| Call_set_iodir (val : Z)
| Call_get_iodir
| Call_get_inv
| Call_set_inv (val : Z)
| Call_get_pin (pin : Z)
| Call_write_pin (pin : Z) (val : bool)
| Call_read_pin (pin : Z)
| Call_switch_to_output (p : DigitalInOut) (value : bool)
| Call_switch_to_input (p : DigitalInOut)
| Call_value (p : DigitalInOut)
| Call_value_setter (p : DigitalInOut) (val : bool)
| Call_direction (p : DigitalInOut)
| Call_direction_setter (p : DigitalInOut) (val : Direction)
| Call_invert_polarity (p : DigitalInOut)
| Call_invert_polarity_setter (p : DigitalInOut) (val : bool).

Definition exec (c : call) (s : TCA9534) : TCA9534 :=
  match c with
  | Call_read_gpio => snd (read_gpio s)
  | Call_write_gpio val => snd (write_gpio val s)
  | Call_set_iodir val => snd (set_iodir val s)
  | Call_get_iodir => snd (get_iodir s)
  | Call_get_inv => snd (get_inv s)
  | Call_set_inv val => snd (set_inv val s)
  | Call_get_pin pin => snd (get_pin pin s)
  | Call_write_pin pin val => snd (write_pin pin val s)
  | Call_read_pin pin => snd (read_pin pin s)
  | Call_switch_to_output p v => snd (switch_to_output p v s)
  | Call_switch_to_input p => snd (switch_to_input p s)
  | Call_value p => snd (value p s)
  | Call_value_setter p v => snd (value_setter p v s)
  | Call_direction p => snd (direction p s)
  | Call_direction_setter p v => snd (direction_setter p v s)
  | Call_invert_polarity p => snd (invert_polarity p s)
  | Call_invert_polarity_setter p v => snd (invert_polarity_setter p v s)
  end.

Definition exec_all (cs : list call) (s : TCA9534) : TCA9534 :=
  fold_left (fun s c => exec c s) cs s.

(** The three cached registers hold bytes. *)
Definition cache_ok (s : TCA9534) : Prop :=
  0 <= _output s <= 255 /\ 0 <= _inversion s <= 255 /\
  0 <= _configuration s <= 255.

(** A method that leaves bytes in the cache whatever it returns. *)
Definition keeps_cache_ok {A} (m : M A) : Prop :=
  forall s, cache_ok s -> cache_ok (snd (m s)).

End Driver.

Arguments TCA9534 D : clear implicits.

(** ** A scripted bus device

    A test double for the bus: the script lists the outcome of each coming
    transaction (for a write only success or failure matters); once the
    script is used up every transaction fails. *)

Definition Script : Type := list (result byte).

Definition script_write (d : Script) (buf : list Z) : Script * result unit :=
  match d with
  | [] => ([], Raise OSError)
  | Ok _ :: d' => (d', Ok tt)
  | Raise e :: d' => (d', Raise e)
  end.

Definition script_write_then_readinto (d : Script) (out : list Z)
  : Script * result byte :=
  match d with
  | [] => ([], Raise OSError)
  | r :: d' => (d', r)
  end.

#[export] Instance ScriptedDevice : I2CDevice Script := {
  write := script_write;
  write_then_readinto := script_write_then_readinto
}.

(** A device answering a reset: three acknowledged writes, then the
    read-backs OUTPUT = 0xFF, INVERSION = 0x00, CONFIGURATION = 0xFF;
    [more] are the outcomes of the transactions after construction. *)
Definition reset_script (more : Script) : Script :=
  [Ok x00; Ok x00; Ok x00; Ok xff; Ok x00; Ok xff] ++ more.

(** The expander constructed (with reset) on such a device. *)
Definition fresh (more : Script) : TCA9534 Script :=
  snd (__init__ (reset_script more) true).

(** ** The driver's own traffic on a register

    [traffic_on reg t] is the byte that transaction [t] carried for
    register [reg]: the byte of a write to it (sent whether or not the
    write was acknowledged) or the byte of a successful read-back from it.
    [last_traffic reg l v0] is the most recent such byte in the history
    [l], and [v0] when the history has none. *)

Definition traffic_on (reg : Z) (t : transaction) : option Z :=
  match t with
  | I2CWrite [r; v] _ => if r =? reg then Some v else None
  | I2CWriteThenReadinto [r] (Ok b) =>
      if r =? reg then Some (Z_of_byte b) else None
  | _ => None
  end.

Definition last_traffic (reg : Z) (l : list transaction) (v0 : Z) : Z :=
  fold_left
    (fun v t => match traffic_on reg t with Some v' => v' | None => v end)
    l v0.

(** Each cached register is the byte of the driver's last traffic on the
    device register it shadows. *)
Definition cache_coherent {D : Type} (s : TCA9534 D) : Prop :=
  _output s = last_traffic _TCA9534_REGISTER_OUTPUT_PORT (log s) 0 /\
  _inversion s = last_traffic _TCA9534_REGISTER_INVERSION (log s) 0 /\
  _configuration s = last_traffic _TCA9534_REGISTER_CONFIGURATION (log s) 0.

(** A method that keeps a property of the expander object, whatever it
    returns or raises. *)
Definition preserves {D A : Type} (P : TCA9534 D -> Prop)
  (m : Exec (TCA9534 D) A) : Prop :=
  forall s, P s -> P (snd (m s)).


(** A cached register of [s] is what it is in [s0]. *)
Definition same_output {D : Type} (s0 s : TCA9534 D) : Prop :=
  _output s = _output s0.
Definition same_inversion {D : Type} (s0 s : TCA9534 D) : Prop :=
  _inversion s = _inversion s0.
Definition same_configuration {D : Type} (s0 s : TCA9534 D) : Prop :=
  _configuration s = _configuration s0.

(** The transactions of the register protocol: a write of one byte to
    OUTPUT, INVERSION or CONFIGURATION (register address, then the byte),
    or a one-byte read after sending the address of one of the four
    registers. *)
Definition register_transaction (t : transaction) : bool :=
  match t with
  | I2CWrite [r; v] _ =>
      (_TCA9534_REGISTER_OUTPUT_PORT <=? r) &&
      (r <=? _TCA9534_REGISTER_CONFIGURATION) && is_byte v
  | I2CWriteThenReadinto [r] _ =>
      (_TCA9534_REGISTER_INPUT_PORT <=? r) &&
      (r <=? _TCA9534_REGISTER_CONFIGURATION)
  | _ => false
  end.

Definition traffic_ok {D : Type} (s : TCA9534 D) : Prop :=
  Forall (fun t => register_transaction t = true) (log s).

(** * Properties *)

(** ** Integer facts the driver relies on *)

Lemma land_0xFF_mod (v : Z) : Z.land v 0xFF = v mod 256.
Proof.
  change 0xFF with (Z.ones 8).
  rewrite Z.land_ones by lia.
  reflexivity.
Qed.

Lemma land_0xFF_range (v : Z) : 0 <= Z.land v 0xFF <= 255.
Proof.
  rewrite land_0xFF_mod.
  pose proof (Z.mod_pos_bound v 256 ltac:(lia)).
  lia.
Qed.

Lemma is_byte_iff (v : Z) : is_byte v = true <-> 0 <= v <= 255.
Proof.
  unfold is_byte.
  rewrite andb_true_iff, Z.leb_le, Z.ltb_lt.
  lia.
Qed.

Lemma is_byte_land_0xFF (v : Z) : is_byte (Z.land v 0xFF) = true.
Proof. apply is_byte_iff, land_0xFF_range. Qed.

Lemma Z_of_byte_range (b : byte) : 0 <= Z_of_byte b <= 255.
Proof.
  unfold Z_of_byte.
  pose proof (Byte.to_N_bounded b).
  lia.
Qed.

Lemma py_lshift_nonneg (a n : Z) : 0 <= n -> py_lshift a n = Ok (Z.shiftl a n).
Proof.
  intros Hn. unfold py_lshift.
  destruct (Z.ltb_spec n 0); [lia | reflexivity].
Qed.

Lemma py_rshift_nonneg (a n : Z) : 0 <= n -> py_rshift a n = Ok (Z.shiftr a n).
Proof.
  intros Hn. unfold py_rshift.
  destruct (Z.ltb_spec n 0); [lia | reflexivity].
Qed.

Lemma land_1_b2z (a : Z) : Z.land a 1 = Z.b2z (Z.odd a).
Proof.
  change 1 with (Z.ones 1).
  rewrite Z.land_ones by lia.
  change (2 ^ 1) with 2.
  rewrite Zmod_odd.
  destruct (Z.odd a); reflexivity.
Qed.

(** [(b & (1 << p)) >> p] is bit [p] of [b]. *)
Lemma extract_bit (b p : Z) :
  0 <= p -> Z.shiftr (Z.land b (Z.shiftl 1 p)) p = Z.b2z (Z.testbit b p).
Proof.
  intros Hp.
  rewrite Z.shiftr_land, Z.shiftr_shiftl_l by lia.
  rewrite Z.sub_diag, Z.shiftl_0_r, land_1_b2z, Z.testbit_odd.
  reflexivity.
Qed.

(** [(1 << p) >> p] is 1. *)
Lemma shift_there_and_back (p : Z) : 0 <= p -> Z.shiftr (Z.shiftl 1 p) p = 1.
Proof.
  intros Hp.
  rewrite Z.shiftr_shiftl_l, Z.sub_diag by lia.
  reflexivity.
Qed.

Lemma testbit_shiftl_1 (p q : Z) :
  0 <= p -> 0 <= q -> Z.testbit (Z.shiftl 1 p) q = (q =? p).
Proof.
  intros Hp Hq.
  rewrite Z.shiftl_1_l.
  destruct (Z.eqb_spec q p) as [->|Hne].
  - apply Z.pow2_bits_true; lia.
  - apply Z.pow2_bits_false; lia.
Qed.

Lemma testbit_land_0xFF (v q : Z) :
  0 <= q <= 7 -> Z.testbit (Z.land v 0xFF) q = Z.testbit v q.
Proof.
  intros Hq.
  change 0xFF with (Z.ones 8).
  rewrite Z.land_spec, Z.ones_spec_low by lia.
  apply andb_true_r.
Qed.

Section DriverProperties.

Context {D : Type} `{I2CDevice D}.

Implicit Types (s : TCA9534 D) (p : DigitalInOut).

(** *** What the three register setters do, in one step each *)

Lemma write_gpio_step s val :
  write_gpio val s =
  (snd (write (i2c_device s) [_TCA9534_REGISTER_OUTPUT_PORT; Z.land val 0xFF]),
   with_bus (with_output s (Z.land val 0xFF))
     (fst (write (i2c_device s) [_TCA9534_REGISTER_OUTPUT_PORT; Z.land val 0xFF]))
     (I2CWrite [_TCA9534_REGISTER_OUTPUT_PORT; Z.land val 0xFF]
        (snd (write (i2c_device s) [_TCA9534_REGISTER_OUTPUT_PORT; Z.land val 0xFF])))).
Proof.
  unfold write_gpio, bind, setitem_output, getitem_output, lift, bytearray, i2c_write.
  rewrite is_byte_land_0xFF.
  cbn [forallb _output with_output i2c_device].
  rewrite is_byte_land_0xFF.
  cbn [andb is_byte].
  change (is_byte _TCA9534_REGISTER_OUTPUT_PORT) with true.
  cbn [andb].
  destruct (write _ _) as [d r]; reflexivity.
Qed.

Lemma set_iodir_step s val :
  set_iodir val s =
  (snd (write (i2c_device s) [_TCA9534_REGISTER_CONFIGURATION; Z.land val 0xFF]),
   with_bus (with_configuration s (Z.land val 0xFF))
     (fst (write (i2c_device s) [_TCA9534_REGISTER_CONFIGURATION; Z.land val 0xFF]))
     (I2CWrite [_TCA9534_REGISTER_CONFIGURATION; Z.land val 0xFF]
        (snd (write (i2c_device s) [_TCA9534_REGISTER_CONFIGURATION; Z.land val 0xFF])))).
Proof.
  unfold set_iodir, bind, setitem_configuration, getitem_configuration, lift,
    bytearray, i2c_write.
  rewrite is_byte_land_0xFF.
  cbn [forallb _configuration with_configuration i2c_device].
  rewrite is_byte_land_0xFF.
  change (is_byte _TCA9534_REGISTER_CONFIGURATION) with true.
  cbn [andb].
  destruct (write _ _) as [d r]; reflexivity.
Qed.

Lemma set_inv_step s val :
  set_inv val s =
  (snd (write (i2c_device s) [_TCA9534_REGISTER_INVERSION; Z.land val 0xFF]),
   with_bus (with_inversion s (Z.land val 0xFF))
     (fst (write (i2c_device s) [_TCA9534_REGISTER_INVERSION; Z.land val 0xFF]))
     (I2CWrite [_TCA9534_REGISTER_INVERSION; Z.land val 0xFF]
        (snd (write (i2c_device s) [_TCA9534_REGISTER_INVERSION; Z.land val 0xFF])))).
Proof.
  unfold set_inv, bind, setitem_inversion, getitem_inversion, lift,
    bytearray, i2c_write.
  rewrite is_byte_land_0xFF.
  cbn [forallb _inversion with_inversion i2c_device].
  rewrite is_byte_land_0xFF.
  change (is_byte _TCA9534_REGISTER_INVERSION) with true.
  cbn [andb].
  destruct (write _ _) as [d r]; reflexivity.
Qed.

Lemma read_gpio_step s :
  read_gpio s =
  (match snd (write_then_readinto (i2c_device s) [_TCA9534_REGISTER_INPUT_PORT]) with
   | Ok b => Ok (Z_of_byte b)
   | Raise e => Raise e
   end,
   with_bus s
     (fst (write_then_readinto (i2c_device s) [_TCA9534_REGISTER_INPUT_PORT]))
     (I2CWriteThenReadinto [_TCA9534_REGISTER_INPUT_PORT]
        (snd (write_then_readinto (i2c_device s) [_TCA9534_REGISTER_INPUT_PORT])))).
Proof.
  unfold read_gpio, bind, lift, bytearray, i2c_write_then_readinto, ret.
  cbn [forallb].
  change (is_byte _TCA9534_REGISTER_INPUT_PORT) with true.
  cbn [andb].
  destruct (write_then_readinto _ _) as [d [b|e]]; reflexivity.
Qed.

(** *** The cached registers always hold bytes *)

Lemma keeps_ret {A} (a : A) : keeps_cache_ok (D := D) (ret a).
Proof. intros s Hs; exact Hs. Qed.

Lemma keeps_lift {A} (r : result A) : keeps_cache_ok (D := D) (lift r).
Proof. intros s Hs; exact Hs. Qed.

Lemma keeps_raise {A} (e : exn) : keeps_cache_ok (D := D) (A := A) (raise e).
Proof. intros s Hs; exact Hs. Qed.

Lemma keeps_bind {A B} (m : Exec (TCA9534 D) A) (k : A -> Exec (TCA9534 D) B) :
  keeps_cache_ok (D := D) m -> (forall a, keeps_cache_ok (D := D) (k a)) ->
  keeps_cache_ok (D := D) (bind m k).
Proof.
  intros Hm Hk s Hs. unfold bind.
  specialize (Hm s Hs).
  destruct (m s) as [[a|e] s']; cbn [snd] in *.
  - apply Hk, Hm.
  - exact Hm.
Qed.

Lemma keeps_getitem_output : keeps_cache_ok (D := D) getitem_output.
Proof. intros s Hs; exact Hs. Qed.

Lemma keeps_getitem_inversion : keeps_cache_ok (D := D) getitem_inversion.
Proof. intros s Hs; exact Hs. Qed.

Lemma keeps_getitem_configuration : keeps_cache_ok (D := D) getitem_configuration.
Proof. intros s Hs; exact Hs. Qed.

Lemma keeps_setitem_output v : keeps_cache_ok (D := D) (setitem_output v).
Proof.
  intros s (Ho & Hi & Hc). unfold setitem_output.
  destruct (is_byte v) eqn:Hv; [apply is_byte_iff in Hv|]; repeat split; cbn; lia.
Qed.

Lemma keeps_setitem_inversion v : keeps_cache_ok (D := D) (setitem_inversion v).
Proof.
  intros s (Ho & Hi & Hc). unfold setitem_inversion.
  destruct (is_byte v) eqn:Hv; [apply is_byte_iff in Hv|]; repeat split; cbn; lia.
Qed.

Lemma keeps_setitem_configuration v :
  keeps_cache_ok (D := D) (setitem_configuration v).
Proof.
  intros s (Ho & Hi & Hc). unfold setitem_configuration.
  destruct (is_byte v) eqn:Hv; [apply is_byte_iff in Hv|]; repeat split; cbn; lia.
Qed.

Lemma keeps_getattr name : keeps_cache_ok (D := D) (getattr name).
Proof.
  intros s Hs. unfold getattr.
  repeat match goal with |- context [if ?c then _ else _] => destruct c end;
    exact Hs.
Qed.

Lemma keeps_i2c_write buf : keeps_cache_ok (D := D) (i2c_write buf).
Proof.
  intros s Hs. unfold i2c_write.
  destruct (write _ _) as [d r]; exact Hs.
Qed.

Lemma keeps_i2c_write_then_readinto out :
  keeps_cache_ok (D := D) (i2c_write_then_readinto out).
Proof.
  intros s Hs. unfold i2c_write_then_readinto.
  destruct (write_then_readinto _ _) as [d r]; exact Hs.
Qed.

Lemma keeps_write_gpio val : keeps_cache_ok (D := D) (write_gpio val).
Proof.
  intros s (Ho & Hi & Hc). rewrite write_gpio_step.
  repeat split; cbn; try lia; apply land_0xFF_range.
Qed.

Lemma keeps_set_iodir val : keeps_cache_ok (D := D) (set_iodir val).
Proof.
  intros s (Ho & Hi & Hc). rewrite set_iodir_step.
  repeat split; cbn; try lia; apply land_0xFF_range.
Qed.

Lemma keeps_set_inv val : keeps_cache_ok (D := D) (set_inv val).
Proof.
  intros s (Ho & Hi & Hc). rewrite set_inv_step.
  repeat split; cbn; try lia; apply land_0xFF_range.
Qed.

Create HintDb cache discriminated.
Hint Resolve keeps_ret keeps_lift keeps_raise keeps_bind
  keeps_getitem_output keeps_getitem_inversion keeps_getitem_configuration
  keeps_setitem_output keeps_setitem_inversion keeps_setitem_configuration
  keeps_getattr keeps_i2c_write keeps_i2c_write_then_readinto
  keeps_write_gpio keeps_set_iodir keeps_set_inv : cache.

Ltac keeps :=
  repeat first
    [ solve [ auto with cache ]
    | match goal with
      | |- keeps_cache_ok (if ?c then _ else _) => destruct c
      | |- keeps_cache_ok (match ?d with INPUT => _ | _ => _ end) => destruct d
      end
    | apply keeps_bind; [ | intro ] ].

Lemma exec_cache_ok (c : call) : forall s, cache_ok s -> cache_ok (exec c s).
Proof.
  destruct c; cbn [exec];
    match goal with |- forall s, cache_ok s -> cache_ok (snd (?m s)) =>
      change (keeps_cache_ok (D := D) m) end;
    unfold read_gpio, get_iodir, get_inv, get_pin, write_pin, read_pin,
      switch_to_output, switch_to_input, value, value_setter, direction,
      direction_setter, invert_polarity, invert_polarity_setter;
    keeps.
Qed.

Lemma exec_all_cache_ok (cs : list call) :
  forall s, cache_ok s -> cache_ok (exec_all cs s).
Proof.
  unfold exec_all.
  induction cs as [|c cs IH]; intros s Hs; cbn [fold_left].
  - exact Hs.
  - apply IH, exec_cache_ok, Hs.
Qed.

Lemma init_cache_ok (d : D) (reset : bool) : cache_ok (snd (__init__ d reset)).
Proof.
  unfold __init__.
  match goal with |- cache_ok (snd (?m ?s0)) =>
    enough (Hk : keeps_cache_ok (D := D) m) by (apply Hk; repeat split; cbn; lia) end.
  assert (Ho : forall r, keeps_cache_ok
            (fun s : TCA9534 D => (Ok tt, with_output s (Z_of_byte r)))).
  { intros r s (Ho & Hi & Hc); repeat split; cbn; try lia; apply Z_of_byte_range. }
  assert (Hi : forall r, keeps_cache_ok
            (fun s : TCA9534 D => (Ok tt, with_inversion s (Z_of_byte r)))).
  { intros r s (Ho' & Hi & Hc); repeat split; cbn; try lia; apply Z_of_byte_range. }
  assert (Hc : forall r, keeps_cache_ok
            (fun s : TCA9534 D => (Ok tt, with_configuration s (Z_of_byte r)))).
  { intros r s (Ho' & Hi' & Hc); repeat split; cbn; try lia; apply Z_of_byte_range. }
  keeps.
Qed.

(** *** The claims about the expander *)

(** C10: after construction and any sequence of calls the three cached
    registers lie in [0,255]; and each register setter, given any
    integer, stores that integer modulo 256 and sends exactly that byte
    to its register, failing only if the bus write itself fails (the
    call returns what the bus write returned). *)
Theorem cached_bytes_in_range :
  (forall (d : D) (reset : bool) (cs : list call),
      cache_ok (exec_all cs (snd (__init__ d reset)))) /\
  (forall s val,
      _output (snd (write_gpio val s)) = val mod 256 /\
      log (snd (write_gpio val s)) =
        log s ++ [I2CWrite [_TCA9534_REGISTER_OUTPUT_PORT; val mod 256]
                    (fst (write_gpio val s))]) /\
  (forall s val,
      _configuration (snd (set_iodir val s)) = val mod 256 /\
      log (snd (set_iodir val s)) =
        log s ++ [I2CWrite [_TCA9534_REGISTER_CONFIGURATION; val mod 256]
                    (fst (set_iodir val s))]) /\
  (forall s val,
      _inversion (snd (set_inv val s)) = val mod 256 /\
      log (snd (set_inv val s)) =
        log s ++ [I2CWrite [_TCA9534_REGISTER_INVERSION; val mod 256]
                    (fst (set_inv val s))]).
Proof.
  split; [|repeat split].
  - intros d reset cs. apply exec_all_cache_ok, init_cache_ok.
  - rewrite write_gpio_step; cbn. apply land_0xFF_mod.
  - rewrite write_gpio_step; cbn. rewrite land_0xFF_mod. reflexivity.
  - rewrite set_iodir_step; cbn. apply land_0xFF_mod.
  - rewrite set_iodir_step; cbn. rewrite land_0xFF_mod. reflexivity.
  - rewrite set_inv_step; cbn. apply land_0xFF_mod.
  - rewrite set_inv_step; cbn. rewrite land_0xFF_mod. reflexivity.
Qed.

(** C4 (amended): when the bus write of a register setter fails, the
    error reaches the caller and the setter's cached byte already holds
    the new value [val & 0xFF] (it is stored before the transaction and
    not rolled back); the other two cached bytes are unchanged. *)
Theorem setters_on_bus_failure s val e :
  (snd (write (i2c_device s)
          [_TCA9534_REGISTER_OUTPUT_PORT; Z.land val 0xFF]) = Raise e ->
   fst (write_gpio val s) = Raise e /\
   _output (snd (write_gpio val s)) = Z.land val 0xFF /\
   _inversion (snd (write_gpio val s)) = _inversion s /\
   _configuration (snd (write_gpio val s)) = _configuration s) /\
  (snd (write (i2c_device s)
          [_TCA9534_REGISTER_CONFIGURATION; Z.land val 0xFF]) = Raise e ->
   fst (set_iodir val s) = Raise e /\
   _configuration (snd (set_iodir val s)) = Z.land val 0xFF /\
   _output (snd (set_iodir val s)) = _output s /\
   _inversion (snd (set_iodir val s)) = _inversion s) /\
  (snd (write (i2c_device s)
          [_TCA9534_REGISTER_INVERSION; Z.land val 0xFF]) = Raise e ->
   fst (set_inv val s) = Raise e /\
   _inversion (snd (set_inv val s)) = Z.land val 0xFF /\
   _output (snd (set_inv val s)) = _output s /\
   _configuration (snd (set_inv val s)) = _configuration s).
Proof.
  repeat split; try assumption.
  all: first [rewrite write_gpio_step | rewrite set_iodir_step
             | rewrite set_inv_step]; cbn; try reflexivity; assumption.
Qed.

(** C6: for a mask in [0,255], [get_iodir] after [set_iodir mask] returns
    [mask], and [get_iodir] leaves the object, the device and the
    transaction log untouched (no bus transaction). *)
Theorem set_iodir_get_iodir s mask :
  0 <= mask <= 255 ->
  get_iodir (snd (set_iodir mask s)) = (Ok mask, snd (set_iodir mask s)).
Proof.
  intros Hm.
  unfold get_iodir, getitem_configuration.
  rewrite set_iodir_step; cbn.
  rewrite land_0xFF_mod, Z.mod_small by lia.
  reflexivity.
Qed.

(** C8: [get_pin] raises AssertionError for every pin outside [0,7] and
    otherwise returns a pin handle bound to that index; the expander is
    untouched either way. *)
Theorem get_pin_checks_range s pin :
  (0 <= pin <= 7 -> get_pin pin s = (Ok {| _pin := pin |}, s)) /\
  (pin < 0 \/ 7 < pin -> get_pin pin s = (Raise AssertionError, s)).
Proof.
  unfold get_pin.
  split; intros Hp.
  - replace ((0 <=? pin) && (pin <=? 7)) with true; [reflexivity|].
    symmetry; apply andb_true_iff; split; apply Z.leb_le; lia.
  - replace ((0 <=? pin) && (pin <=? 7)) with false; [reflexivity|].
    symmetry; apply andb_false_iff.
    destruct Hp; [left|right]; apply Z.leb_gt; lia.
Qed.

(** C3 (what the code does): [write_pin] looks up [self.output], which
    the expander object does not have, so it raises AttributeError for
    every pin and value, without touching the cache or the bus. *)
Theorem write_pin_raises s pin val :
  write_pin pin val s = (Raise AttributeError, s).
Proof. destruct val; reflexivity. Qed.

(** C7: for a pin in [0,7], after the [value] setter bit [pin] of the
    cached output byte equals the value written and the other seven
    bits are as before; the cached byte stays in [0,255]. *)
Theorem value_setter_sets_one_bit s p val :
  0 <= _pin p <= 7 ->
  0 <= _output (snd (value_setter p val s)) <= 255 /\
  Z.testbit (_output (snd (value_setter p val s))) (_pin p) = val /\
  (forall q, 0 <= q <= 7 -> q <> _pin p ->
     Z.testbit (_output (snd (value_setter p val s))) q =
     Z.testbit (_output s) q).
Proof.
  intros Hp.
  unfold value_setter, bind, getitem_output, lift.
  rewrite py_lshift_nonneg by lia.
  destruct val; rewrite write_gpio_step; cbn [snd with_bus with_output _output].
  - split; [apply land_0xFF_range|split].
    + rewrite testbit_land_0xFF, Z.lor_spec, testbit_shiftl_1 by lia.
      rewrite Z.eqb_refl. apply orb_true_r.
    + intros q Hq Hne.
      rewrite testbit_land_0xFF, Z.lor_spec, testbit_shiftl_1 by lia.
      destruct (Z.eqb_spec q (_pin p)); [contradiction|apply orb_false_r].
  - split; [apply land_0xFF_range|split].
    + rewrite testbit_land_0xFF, Z.land_spec, Z.lnot_spec, testbit_shiftl_1 by lia.
      rewrite Z.eqb_refl. apply andb_false_r.
    + intros q Hq Hne.
      rewrite testbit_land_0xFF, Z.land_spec, Z.lnot_spec, testbit_shiftl_1 by lia.
      destruct (Z.eqb_spec q (_pin p)); [contradiction|apply andb_true_r].
Qed.

(** C9: for a pin in [0,7] the [value] getter issues exactly one bus
    transaction, a read of the INPUT register, and returns bit [pin] of
    the byte read (or the bus error); the cached bytes are neither
    changed nor consulted: the result is the same on any object with the
    same device, whatever its cache (so whatever the pin's direction). *)
Theorem value_reads_input_live s p :
  0 <= _pin p <= 7 ->
  fst (value p s) =
    match snd (write_then_readinto (i2c_device s)
                 [_TCA9534_REGISTER_INPUT_PORT]) with
    | Ok b => Ok (Z.b2z (Z.testbit (Z_of_byte b) (_pin p)))
    | Raise e => Raise e
    end /\
  log (snd (value p s)) =
    log s ++ [I2CWriteThenReadinto [_TCA9534_REGISTER_INPUT_PORT]
                (snd (write_then_readinto (i2c_device s)
                        [_TCA9534_REGISTER_INPUT_PORT]))] /\
  _output (snd (value p s)) = _output s /\
  _inversion (snd (value p s)) = _inversion s /\
  _configuration (snd (value p s)) = _configuration s /\
  (forall s', i2c_device s' = i2c_device s ->
              fst (value p s') = fst (value p s)).
Proof.
  intros Hp.
  assert (Hv : forall t, value p t =
    (match snd (write_then_readinto (i2c_device t)
                  [_TCA9534_REGISTER_INPUT_PORT]) with
     | Ok b => Ok (Z.b2z (Z.testbit (Z_of_byte b) (_pin p)))
     | Raise e => Raise e
     end,
     with_bus t
       (fst (write_then_readinto (i2c_device t) [_TCA9534_REGISTER_INPUT_PORT]))
       (I2CWriteThenReadinto [_TCA9534_REGISTER_INPUT_PORT]
          (snd (write_then_readinto (i2c_device t)
                  [_TCA9534_REGISTER_INPUT_PORT]))))).
  { intros t. unfold value, bind. rewrite read_gpio_step.
    destruct (snd (write_then_readinto _ _)) as [b|e]; [|reflexivity].
    unfold lift.
    rewrite py_lshift_nonneg, py_rshift_nonneg, extract_bit by lia.
    reflexivity. }
  rewrite Hv; cbn [fst snd with_bus log _output _inversion _configuration].
  repeat split.
  intros s' Hs'. rewrite Hv, Hs'. reflexivity.
Qed.

(** C5: a construction that succeeds has issued, with [reset], exactly
    the three writes CONFIGURATION=0xFF, INVERSION=0x00, OUTPUT=0xFF in
    that order and then exactly the three reads of OUTPUT, INVERSION,
    CONFIGURATION in that order; without [reset], no write and the same
    three reads; the bytes read are the three cached bytes. *)
Theorem init_transactions (d : D) (reset : bool) (t : TCA9534 D) :
  __init__ d reset = (Ok tt, t) ->
  exists bo bi bc : byte,
    log t =
      (if reset then
         [I2CWrite [_TCA9534_REGISTER_CONFIGURATION; 0xFF] (Ok tt);
          I2CWrite [_TCA9534_REGISTER_INVERSION; 0x00] (Ok tt);
          I2CWrite [_TCA9534_REGISTER_OUTPUT_PORT; 0xFF] (Ok tt)]
       else [])
      ++ [I2CWriteThenReadinto [_TCA9534_REGISTER_OUTPUT_PORT] (Ok bo);
          I2CWriteThenReadinto [_TCA9534_REGISTER_INVERSION] (Ok bi);
          I2CWriteThenReadinto [_TCA9534_REGISTER_CONFIGURATION] (Ok bc)] /\
    _output t = Z_of_byte bo /\
    _inversion t = Z_of_byte bi /\
    _configuration t = Z_of_byte bc.
Proof.
  unfold __init__, bind, lift, ret, bytearray, i2c_write,
    i2c_write_then_readinto.
  cbn [forallb].
  change (is_byte _TCA9534_REGISTER_CONFIGURATION) with true.
  change (is_byte _TCA9534_REGISTER_INVERSION) with true.
  change (is_byte _TCA9534_REGISTER_OUTPUT_PORT) with true.
  change (is_byte 0xFF) with true.
  change (is_byte 0x00) with true.
  cbn [andb].
  destruct reset; cbn [i2c_device with_bus with_output with_inversion log].
  - destruct (write d _) as [d1 [[]|e1]]; [|discriminate].
    cbn [i2c_device with_bus with_output with_inversion log].
    destruct (write d1 _) as [d2 [[]|e2]]; [|discriminate].
    cbn [i2c_device with_bus with_output with_inversion log].
    destruct (write d2 _) as [d3 [[]|e3]]; [|discriminate].
    cbn [i2c_device with_bus with_output with_inversion log].
    destruct (write_then_readinto d3 _) as [d4 [bo|e4]]; [|discriminate].
    cbn [i2c_device with_bus with_output with_inversion log].
    destruct (write_then_readinto d4 _) as [d5 [bi|e5]]; [|discriminate].
    cbn [i2c_device with_bus with_output with_inversion log].
    destruct (write_then_readinto d5 _) as [d6 [bc|e6]]; [|discriminate].
    intros [= <-]. exists bo, bi, bc. cbn. repeat split.
  - destruct (write_then_readinto d _) as [d4 [bo|e4]]; [|discriminate].
    cbn [i2c_device with_bus with_output with_inversion log].
    destruct (write_then_readinto d4 _) as [d5 [bi|e5]]; [|discriminate].
    cbn [i2c_device with_bus with_output with_inversion log].
    destruct (write_then_readinto d5 _) as [d6 [bc|e6]]; [|discriminate].
    intros [= <-]. exists bo, bi, bc. cbn. repeat split.
Qed.

(** *** What the direction setter and the polarity getter compute *)

(** Switching pin [pin] to output stores bit [pin] of the old cached
    configuration in bit 0 of the new one when [pin] is not 0, and 0
    when it is; all other bits of the new configuration are 0. *)
Lemma direction_setter_output_stores s p :
  0 <= _pin p <= 7 ->
  _configuration (snd (direction_setter p OUTPUT s)) =
    if _pin p =? 0 then 0
    else Z.b2z (Z.testbit (_configuration s) (_pin p)).
Proof.
  intros Hp.
  unfold direction_setter, bind, getitem_configuration, lift.
  rewrite py_lshift_nonneg, py_rshift_nonneg, extract_bit by lia.
  rewrite set_iodir_step; cbn [snd with_bus with_configuration _configuration].
  assert (Hcases : _pin p = 0 \/ _pin p = 1 \/ _pin p = 2 \/ _pin p = 3 \/
                   _pin p = 4 \/ _pin p = 5 \/ _pin p = 6 \/ _pin p = 7) by lia.
  destruct (Z.testbit (_configuration s) (_pin p));
    repeat (destruct Hcases as [E|Hcases]; [rewrite E; reflexivity|]);
    rewrite Hcases; reflexivity.
Qed.

(** The polarity getter returns bit 0 of the cached inversion mask,
    whatever the pin. *)
Lemma invert_polarity_returns_bit0 s p :
  0 <= _pin p <= 7 ->
  invert_polarity p s = (Ok (Z.b2z (Z.testbit (_inversion s) 0)), s).
Proof.
  intros Hp.
  unfold invert_polarity, bind, getitem_inversion, lift, ret.
  rewrite py_lshift_nonneg, py_rshift_nonneg, shift_there_and_back by lia.
  rewrite land_1_b2z, Z.bit0_odd.
  reflexivity.
Qed.

End DriverProperties.

(** ** The driver on a scripted device *)

(** After a reset the cache shows the device's reset values. *)
Example fresh_cache :
  fst (__init__ (reset_script []) true) = Ok tt /\
  _output (fresh []) = 0xFF /\ _inversion (fresh []) = 0x00 /\
  _configuration (fresh []) = 0xFF.
Proof. repeat split. Qed.

(** Integers outside [0,255] are reduced modulo 256 by the setters. *)
Example write_gpio_out_of_range :
  write_gpio 0x1A5 (fresh [Ok x00]) = write_gpio 0xA5 (fresh [Ok x00]) /\
  _output (snd (write_gpio (-1) (fresh [Ok x00]))) = 0xFF /\
  fst (write_gpio (-1) (fresh [Ok x00])) = Ok tt.
Proof. repeat split. Qed.

(** C1 (the code at the failing input): on a freshly reset expander, whose
    cached configuration is 0xFF, setting pin 3 to output through the
    [direction] setter or through [switch_to_output] leaves the cached
    configuration at 0x01: bit 3 is cleared, and so are bits 1, 2 and 4
    to 7, which belong to other pins. *)
Theorem direction_output_resets_other_pins :
  _configuration (fresh [Ok x00]) = 0xFF /\
  bind (get_pin 3) (fun p => direction_setter p OUTPUT) (fresh [Ok x00])
  = (Ok tt,
     with_bus (with_configuration (fresh [Ok x00]) 0x01) []
       (I2CWrite [_TCA9534_REGISTER_CONFIGURATION; 0x01] (Ok tt))) /\
  _configuration
    (snd (bind (get_pin 3) (fun p => switch_to_output p false)
            (fresh [Ok x00; Ok x00]))) = 0x01 /\
  Z.testbit (_configuration (fresh [Ok x00])) 7 = true /\
  Z.testbit
    (_configuration
       (snd (bind (get_pin 3) (fun p => direction_setter p OUTPUT)
               (fresh [Ok x00])))) 7 = false /\
  Z.testbit
    (_configuration
       (snd (bind (get_pin 3) (fun p => switch_to_output p false)
               (fresh [Ok x00; Ok x00])))) 7 = false.
Proof. repeat split. Qed.

(** C2 (the code at the failing input): after pin 1's polarity has been
    inverted on a freshly reset expander the cached inversion mask is 0x02,
    bit 1 of it is set, and the [invert_polarity] getter of pin 1 returns
    0, which is false. *)
Theorem invert_polarity_reads_wrong_bit :
  let s := snd (bind (get_pin 1) (fun p => invert_polarity_setter p true)
                  (fresh [Ok x00])) in
  _inversion s = 0x02 /\
  Z.testbit (_inversion s) 1 = true /\
  fst (bind (get_pin 1) invert_polarity s) = Ok 0 /\
  py_truthy 0 = false.
Proof. repeat split. Qed.

(** C4 (as stated, refuted): on a freshly reset expander whose bus then
    fails, each setter raises OSError and its cached byte is no longer
    what it was before the call. *)
Lemma setter_failure_changes_cache :
  (fst (write_gpio 0x00 (fresh [])) = Raise OSError /\
   _output (snd (write_gpio 0x00 (fresh []))) <> _output (fresh [])) /\
  (fst (set_iodir 0x00 (fresh [])) = Raise OSError /\
   _configuration (snd (set_iodir 0x00 (fresh []))) <> _configuration (fresh [])) /\
  (fst (set_inv 0xFF (fresh [])) = Raise OSError /\
   _inversion (snd (set_inv 0xFF (fresh []))) <> _inversion (fresh [])).
Proof. repeat split; intros E; vm_compute in E; discriminate E. Qed.

Lemma setters_on_bus_failure_witness :
  (snd (write (i2c_device (fresh []))
          [_TCA9534_REGISTER_OUTPUT_PORT; Z.land 0x00 0xFF]) = Raise OSError /\
   fst (write_gpio 0x00 (fresh [])) = Raise OSError /\
   _output (snd (write_gpio 0x00 (fresh []))) = Z.land 0x00 0xFF /\
   _inversion (snd (write_gpio 0x00 (fresh []))) = _inversion (fresh []) /\
   _configuration (snd (write_gpio 0x00 (fresh []))) = _configuration (fresh [])) /\
  (snd (write (i2c_device (fresh []))
          [_TCA9534_REGISTER_CONFIGURATION; Z.land 0x00 0xFF]) = Raise OSError /\
   fst (set_iodir 0x00 (fresh [])) = Raise OSError /\
   _configuration (snd (set_iodir 0x00 (fresh []))) = Z.land 0x00 0xFF /\
   _output (snd (set_iodir 0x00 (fresh []))) = _output (fresh []) /\
   _inversion (snd (set_iodir 0x00 (fresh []))) = _inversion (fresh [])) /\
  (snd (write (i2c_device (fresh []))
          [_TCA9534_REGISTER_INVERSION; Z.land 0x00 0xFF]) = Raise OSError /\
   fst (set_inv 0x00 (fresh [])) = Raise OSError /\
   _inversion (snd (set_inv 0x00 (fresh []))) = Z.land 0x00 0xFF /\
   _output (snd (set_inv 0x00 (fresh []))) = _output (fresh []) /\
   _configuration (snd (set_inv 0x00 (fresh []))) = _configuration (fresh [])).
Proof.
  destruct (setters_on_bus_failure (fresh []) 0x00 OSError) as (Hw & Hd & Hi).
  split; [|split].
  - split; [reflexivity | apply Hw; reflexivity].
  - split; [reflexivity | apply Hd; reflexivity].
  - split; [reflexivity | apply Hi; reflexivity].
Defined.

Lemma init_transactions_witness :
  (__init__ (reset_script []) true = (Ok tt, fresh []) /\
   exists bo bi bc : byte,
     log (fresh []) =
       [I2CWrite [_TCA9534_REGISTER_CONFIGURATION; 0xFF] (Ok tt);
        I2CWrite [_TCA9534_REGISTER_INVERSION; 0x00] (Ok tt);
        I2CWrite [_TCA9534_REGISTER_OUTPUT_PORT; 0xFF] (Ok tt)]
       ++ [I2CWriteThenReadinto [_TCA9534_REGISTER_OUTPUT_PORT] (Ok bo);
           I2CWriteThenReadinto [_TCA9534_REGISTER_INVERSION] (Ok bi);
           I2CWriteThenReadinto [_TCA9534_REGISTER_CONFIGURATION] (Ok bc)] /\
     _output (fresh []) = Z_of_byte bo /\
     _inversion (fresh []) = Z_of_byte bi /\
     _configuration (fresh []) = Z_of_byte bc) /\
  (__init__ [Ok x0f; Ok xf0; Ok x3c] false
   = (Ok tt, snd (__init__ [Ok x0f; Ok xf0; Ok x3c] false)) /\
   exists bo bi bc : byte,
     log (snd (__init__ [Ok x0f; Ok xf0; Ok x3c] false)) =
       [] ++ [I2CWriteThenReadinto [_TCA9534_REGISTER_OUTPUT_PORT] (Ok bo);
              I2CWriteThenReadinto [_TCA9534_REGISTER_INVERSION] (Ok bi);
              I2CWriteThenReadinto [_TCA9534_REGISTER_CONFIGURATION] (Ok bc)] /\
     _output (snd (__init__ [Ok x0f; Ok xf0; Ok x3c] false)) = Z_of_byte bo /\
     _inversion (snd (__init__ [Ok x0f; Ok xf0; Ok x3c] false)) = Z_of_byte bi /\
     _configuration (snd (__init__ [Ok x0f; Ok xf0; Ok x3c] false)) = Z_of_byte bc).
Proof.
  split; (split; [reflexivity|]).
  - apply (init_transactions (reset_script []) true (fresh [])); reflexivity.
  - apply (init_transactions [Ok x0f; Ok xf0; Ok x3c] false
             (snd (__init__ [Ok x0f; Ok xf0; Ok x3c] false))); reflexivity.
Defined.

Lemma set_iodir_get_iodir_witness :
  0 <= 0x5A <= 255 /\
  get_iodir (snd (set_iodir 0x5A (fresh [Ok x00])))
  = (Ok 0x5A, snd (set_iodir 0x5A (fresh [Ok x00]))).
Proof.
  split; [lia | apply (set_iodir_get_iodir (fresh [Ok x00]) 0x5A); lia].
Defined.

Lemma get_pin_checks_range_witness :
  (0 <= 3 <= 7 /\ get_pin 3 (fresh []) = (Ok {| _pin := 3 |}, fresh [])) /\
  ((8 < 0 \/ 7 < 8) /\ get_pin 8 (fresh []) = (Raise AssertionError, fresh [])) /\
  ((-1 < 0 \/ 7 < -1) /\ get_pin (-1) (fresh []) = (Raise AssertionError, fresh [])).
Proof.
  split; [|split].
  - split; [lia | apply (proj1 (get_pin_checks_range (fresh []) 3)); lia].
  - split; [lia | apply (proj2 (get_pin_checks_range (fresh []) 8)); lia].
  - split; [lia | apply (proj2 (get_pin_checks_range (fresh []) (-1))); lia].
Defined.

Lemma value_setter_sets_one_bit_witness :
  0 <= _pin {| _pin := 3 |} <= 7 /\
  0 <= _output (snd (value_setter {| _pin := 3 |} false (fresh [Ok x00]))) <= 255 /\
  Z.testbit (_output (snd (value_setter {| _pin := 3 |} false (fresh [Ok x00]))))
    (_pin {| _pin := 3 |}) = false /\
  (forall q, 0 <= q <= 7 -> q <> _pin {| _pin := 3 |} ->
     Z.testbit (_output (snd (value_setter {| _pin := 3 |} false (fresh [Ok x00])))) q =
     Z.testbit (_output (fresh [Ok x00])) q).
Proof.
  split; [cbn; lia|].
  apply (value_setter_sets_one_bit (fresh [Ok x00]) {| _pin := 3 |} false).
  cbn; lia.
Defined.

Lemma value_reads_input_live_witness :
  0 <= _pin {| _pin := 5 |} <= 7 /\
  fst (value {| _pin := 5 |} (fresh [Ok x20])) = Ok 1 /\
  log (snd (value {| _pin := 5 |} (fresh [Ok x20]))) =
    log (fresh [Ok x20])
    ++ [I2CWriteThenReadinto [_TCA9534_REGISTER_INPUT_PORT] (Ok x20)].
Proof.
  split; [cbn; lia|].
  destruct (value_reads_input_live (fresh [Ok x20]) {| _pin := 5 |})
    as (Hr & Hl & _); [cbn; lia|].
  split; [exact Hr | exact Hl].
Defined.

(** * Further properties of the driver *)

Lemma land_shiftr_bit (g p : Z) :
  0 <= p -> Z.land (Z.shiftr g p) 0x1 = Z.b2z (Z.testbit g p).
Proof.
  intros Hp. rewrite land_1_b2z, Z.testbit_odd. reflexivity.
Qed.

Lemma py_lshift_neg (a n : Z) : n < 0 -> py_lshift a n = Raise ValueError.
Proof.
  intros Hn. unfold py_lshift.
  destruct (Z.ltb_spec n 0); [reflexivity | lia].
Qed.


Lemma testbit_byte_high (v q : Z) :
  0 <= v <= 255 -> 8 <= q -> Z.testbit v q = false.
Proof.
  intros Hv Hq.
  destruct (Z.eq_dec v 0) as [->|Hne]; [apply Z.testbit_0_l|].
  apply Z.bits_above_log2; [lia|].
  assert (Z.log2 v < 8); [|lia].
  apply Z.log2_lt_pow2; lia.
Qed.

Section DriverExtras.

Context {D : Type} `{I2CDevice D}.

Implicit Types (s : TCA9534 D) (p : DigitalInOut).

(** *** Pin methods in one step each *)

Lemma read_pin_step s pin :
  0 <= pin ->
  read_pin pin s =
  (match snd (write_then_readinto (i2c_device s) [_TCA9534_REGISTER_INPUT_PORT]) with
   | Ok b => Ok (Z.b2z (Z.testbit (Z_of_byte b) pin))
   | Raise e => Raise e
   end,
   with_bus s
     (fst (write_then_readinto (i2c_device s) [_TCA9534_REGISTER_INPUT_PORT]))
     (I2CWriteThenReadinto [_TCA9534_REGISTER_INPUT_PORT]
        (snd (write_then_readinto (i2c_device s) [_TCA9534_REGISTER_INPUT_PORT])))).
Proof.
  intros Hp. unfold read_pin, bind. rewrite read_gpio_step.
  destruct (snd (write_then_readinto _ _)) as [b|e]; [|reflexivity].
  unfold lift, ret.
  rewrite py_rshift_nonneg, land_shiftr_bit by lia.
  reflexivity.
Qed.

Lemma direction_step s p :
  0 <= _pin p ->
  direction p s =
  (Ok (if Z.testbit (_configuration s) (_pin p) then INPUT else OUTPUT), s).
Proof.
  intros Hp.
  unfold direction, bind, getitem_configuration, lift.
  rewrite py_lshift_nonneg, py_rshift_nonneg, extract_bit by lia.
  destruct (Z.testbit (_configuration s) (_pin p)); reflexivity.
Qed.

Lemma value_setter_step s p val :
  0 <= _pin p ->
  value_setter p val s =
  write_gpio (if val then Z.lor (_output s) (Z.shiftl 1 (_pin p))
              else Z.land (_output s) (Z.lnot (Z.shiftl 1 (_pin p)))) s.
Proof.
  intros Hp.
  unfold value_setter, bind, getitem_output, lift.
  rewrite py_lshift_nonneg by lia.
  destruct val; reflexivity.
Qed.

Lemma invert_polarity_setter_step s p val :
  0 <= _pin p ->
  invert_polarity_setter p val s =
  set_inv (if val then Z.lor (_inversion s) (Z.shiftl 1 (_pin p))
           else Z.land (_inversion s) (Z.lnot (Z.shiftl 1 (_pin p)))) s.
Proof.
  intros Hp.
  unfold invert_polarity_setter, bind, get_inv, getitem_inversion, lift.
  rewrite py_lshift_nonneg by lia.
  destruct val; reflexivity.
Qed.

Lemma direction_setter_step s p :
  0 <= _pin p ->
  direction_setter p INPUT s =
    set_iodir (Z.lor (Z.b2z (Z.testbit (_configuration s) (_pin p)))
                 (Z.shiftl 1 (_pin p))) s /\
  direction_setter p OUTPUT s =
    set_iodir (Z.land (Z.b2z (Z.testbit (_configuration s) (_pin p)))
                 (Z.lnot (Z.shiftl 1 (_pin p)))) s.
Proof.
  intros Hp.
  unfold direction_setter, bind, getitem_configuration, lift.
  rewrite py_lshift_nonneg, py_rshift_nonneg, extract_bit by lia.
  split; reflexivity.
Qed.

(** *** Reading the input port *)

(** X1: for a pin number that is not negative, [read_pin] issues exactly
    one bus transaction, a read of the INPUT register; it returns bit
    [pin] of the byte read, as 0 or 1, or raises the error of the bus; the
    three cached bytes are left as they were either way. *)
Theorem read_pin_reads_input s pin :
  0 <= pin ->
  fst (read_pin pin s) =
    match snd (write_then_readinto (i2c_device s)
                 [_TCA9534_REGISTER_INPUT_PORT]) with
    | Ok b => Ok (Z.b2z (Z.testbit (Z_of_byte b) pin))
    | Raise e => Raise e
    end /\
  log (snd (read_pin pin s)) =
    log s ++ [I2CWriteThenReadinto [_TCA9534_REGISTER_INPUT_PORT]
                (snd (write_then_readinto (i2c_device s)
                        [_TCA9534_REGISTER_INPUT_PORT]))] /\
  _output (snd (read_pin pin s)) = _output s /\
  _inversion (snd (read_pin pin s)) = _inversion s /\
  _configuration (snd (read_pin pin s)) = _configuration s.
Proof.
  intros Hp. rewrite read_pin_step by lia.
  repeat split.
Qed.


(** *** The cached getters *)

(** X3: whatever integer [set_inv] is given and whether or not its bus
    write succeeds, [get_inv] then returns that integer modulo 256, and
    leaves the object, the device and the transaction history as they
    are. *)
Theorem set_inv_get_inv s val :
  get_inv (snd (set_inv val s)) = (Ok (val mod 256), snd (set_inv val s)).
Proof.
  unfold get_inv, getitem_inversion.
  rewrite set_inv_step; cbn.
  rewrite land_0xFF_mod.
  reflexivity.
Qed.

(** X4: the getters [get_iodir], [get_inv], [get_pin], [direction] and
    [invert_polarity] never touch the cache, the device or the bus, for
    any argument, also when they raise. *)
Theorem getters_leave_object s p pin :
  snd (get_iodir s) = s /\
  snd (get_inv s) = s /\
  snd (get_pin pin s) = s /\
  snd (direction p s) = s /\
  snd (invert_polarity p s) = s.
Proof.
  repeat split.
  - unfold get_pin. destruct ((0 <=? pin) && (pin <=? 7)); reflexivity.
  - unfold direction, bind, getitem_configuration, lift, py_lshift, py_rshift, ret.
    destruct (_pin p <? 0); [reflexivity|].
    destruct (py_truthy _); reflexivity.
  - unfold invert_polarity, bind, getitem_inversion, lift, py_lshift, py_rshift, ret.
    destruct (_pin p <? 0); reflexivity.
Qed.


(** *** Polarity and direction setters *)

(** X6: for a pin in [0,7], the [invert_polarity] setter makes bit [pin]
    of the cached inversion mask equal to the value given and keeps the
    other seven bits; the cached output and configuration bytes are
    untouched, and the one transaction issued is a write of the new mask
    to the INVERSION register, whose outcome is what the setter returns. *)
Theorem invert_polarity_setter_sets_one_bit s p val :
  0 <= _pin p <= 7 ->
  0 <= _inversion (snd (invert_polarity_setter p val s)) <= 255 /\
  Z.testbit (_inversion (snd (invert_polarity_setter p val s))) (_pin p) = val /\
  (forall q, 0 <= q <= 7 -> q <> _pin p ->
     Z.testbit (_inversion (snd (invert_polarity_setter p val s))) q =
     Z.testbit (_inversion s) q) /\
  _output (snd (invert_polarity_setter p val s)) = _output s /\
  _configuration (snd (invert_polarity_setter p val s)) = _configuration s /\
  log (snd (invert_polarity_setter p val s)) =
    log s ++ [I2CWrite [_TCA9534_REGISTER_INVERSION;
                        _inversion (snd (invert_polarity_setter p val s))]
                (fst (invert_polarity_setter p val s))].
Proof.
  intros Hp.
  rewrite invert_polarity_setter_step, set_inv_step by lia.
  cbn [fst snd with_bus with_inversion _inversion _output _configuration log].
  split; [apply land_0xFF_range|].
  split; [|split; [|repeat split]].
  - destruct val.
    + rewrite testbit_land_0xFF, Z.lor_spec, testbit_shiftl_1 by lia.
      rewrite Z.eqb_refl. apply orb_true_r.
    + rewrite testbit_land_0xFF, Z.land_spec, Z.lnot_spec, testbit_shiftl_1 by lia.
      rewrite Z.eqb_refl. apply andb_false_r.
  - intros q Hq Hne. destruct val.
    + rewrite testbit_land_0xFF, Z.lor_spec, testbit_shiftl_1 by lia.
      destruct (Z.eqb_spec q (_pin p)); [contradiction|apply orb_false_r].
    + rewrite testbit_land_0xFF, Z.land_spec, Z.lnot_spec, testbit_shiftl_1 by lia.
      destruct (Z.eqb_spec q (_pin p)); [contradiction|apply andb_true_r].
Qed.


(** X8: for a pin in [0,7], after the [direction] setter was given INPUT
    or OUTPUT the [direction] getter of the same pin returns that
    direction, whether or not the bus write of the setter succeeded. *)
Theorem direction_setter_then_direction s p d :
  0 <= _pin p <= 7 ->
  d <> NotADirection ->
  fst (direction p (snd (direction_setter p d s))) = Ok d.
Proof.
  intros Hp Hd.
  rewrite direction_step by lia.
  destruct (direction_setter_step s p ltac:(lia)) as [Hin Hout].
  destruct d; [rewrite Hin | rewrite Hout | contradiction];
    rewrite set_iodir_step;
    cbn [fst snd with_bus with_configuration _configuration].
  - rewrite testbit_land_0xFF, Z.lor_spec, testbit_shiftl_1 by lia.
    rewrite Z.eqb_refl, orb_true_r. reflexivity.
  - rewrite testbit_land_0xFF, Z.land_spec, Z.lnot_spec, testbit_shiftl_1 by lia.
    rewrite Z.eqb_refl, andb_false_r. reflexivity.
Qed.

(** *** [switch_to_output] *)

Lemma value_setter_keeps_configuration s p v :
  _configuration (snd (value_setter p v s)) = _configuration s.
Proof.
  destruct (Z.ltb_spec (_pin p) 0) as [Hn|Hp].
  - unfold value_setter, bind, getitem_output, lift.
    rewrite py_lshift_neg by lia.
    destruct v; reflexivity.
  - rewrite value_setter_step, write_gpio_step by lia. reflexivity.
Qed.

Lemma switch_to_output_step s p v :
  switch_to_output p v s =
  match value_setter p v s with
  | (Ok _, s1) =>
      bind getitem_configuration (fun c =>
      bind (lift (py_lshift 1 (_pin p))) (fun m =>
      bind (lift (py_rshift (Z.land c m) (_pin p))) (fun b =>
      bind (lift (py_lshift 1 (_pin p))) (fun m' =>
      set_iodir (Z.land b (Z.lnot m')))))) s1
  | (Raise e, s1) => (Raise e, s1)
  end.
Proof. reflexivity. Qed.

Lemma switch_to_output_full s p v :
  0 <= _pin p ->
  switch_to_output p v s =
  match write_gpio (if v then Z.lor (_output s) (Z.shiftl 1 (_pin p))
                    else Z.land (_output s) (Z.lnot (Z.shiftl 1 (_pin p)))) s with
  | (Ok _, s1) =>
      set_iodir (Z.land (Z.b2z (Z.testbit (_configuration s1) (_pin p)))
                   (Z.lnot (Z.shiftl 1 (_pin p)))) s1
  | (Raise e, s1) => (Raise e, s1)
  end.
Proof.
  intros Hp.
  rewrite switch_to_output_step, value_setter_step by lia.
  destruct (write_gpio _ s) as [[u|e] s1]; [|reflexivity].
  unfold bind, getitem_configuration, lift.
  rewrite py_lshift_nonneg, py_rshift_nonneg, extract_bit by lia.
  reflexivity.
Qed.

(** X9: for a pin in [0,7], a [switch_to_output] that returns has set bit
    [pin] of the cached output byte to the initial value and kept its
    other seven bits, the [direction] getter of the pin then returns
    OUTPUT, and exactly two transactions were issued: the write of the
    output byte to OUTPUT first, then the write of the configuration byte
    to CONFIGURATION. *)
Theorem switch_to_output_on_success s p v :
  0 <= _pin p <= 7 ->
  fst (switch_to_output p v s) = Ok tt ->
  Z.testbit (_output (snd (switch_to_output p v s))) (_pin p) = v /\
  (forall q, 0 <= q <= 7 -> q <> _pin p ->
     Z.testbit (_output (snd (switch_to_output p v s))) q =
     Z.testbit (_output s) q) /\
  fst (direction p (snd (switch_to_output p v s))) = Ok OUTPUT /\
  log (snd (switch_to_output p v s)) =
    log s ++ [I2CWrite [_TCA9534_REGISTER_OUTPUT_PORT;
                        _output (snd (switch_to_output p v s))] (Ok tt);
              I2CWrite [_TCA9534_REGISTER_CONFIGURATION;
                        _configuration (snd (switch_to_output p v s))] (Ok tt)].
Proof.
  intros Hp.
  rewrite switch_to_output_full, write_gpio_step by lia.
  destruct (write (i2c_device s) _) as [d1 [[]|e1]]; cbn [fst snd];
    [|discriminate].
  rewrite set_iodir_step.
  cbn [i2c_device with_bus with_output with_configuration _configuration
       _output log fst snd].
  destruct (write d1 _) as [d2 [[]|e2]]; cbn [fst snd]; [|discriminate].
  intros _.
  rewrite direction_step by lia.
  cbn [fst snd with_bus with_output with_configuration _configuration
       _output log].
  split; [|split; [|split]].
  - destruct v.
    + rewrite testbit_land_0xFF, Z.lor_spec, testbit_shiftl_1 by lia.
      rewrite Z.eqb_refl. apply orb_true_r.
    + rewrite testbit_land_0xFF, Z.land_spec, Z.lnot_spec, testbit_shiftl_1 by lia.
      rewrite Z.eqb_refl. apply andb_false_r.
  - intros q Hq Hne. destruct v.
    + rewrite testbit_land_0xFF, Z.lor_spec, testbit_shiftl_1 by lia.
      destruct (Z.eqb_spec q (_pin p)); [contradiction|apply orb_false_r].
    + rewrite testbit_land_0xFF, Z.land_spec, Z.lnot_spec, testbit_shiftl_1 by lia.
      destruct (Z.eqb_spec q (_pin p)); [contradiction|apply andb_true_r].
  - rewrite testbit_land_0xFF, Z.land_spec, Z.lnot_spec, testbit_shiftl_1 by lia.
    rewrite Z.eqb_refl, andb_false_r. reflexivity.
  - rewrite <- app_assoc. reflexivity.
Qed.

(** X10: [switch_to_output] first does what the [value] setter does; when
    that raises (the write of the output byte failed, or the pin number is
    negative), [switch_to_output] raises the same error and stops there:
    the object is as the [value] setter left it, the cached configuration
    is unchanged and no CONFIGURATION write is issued. *)
Theorem switch_to_output_latch_failure s p v e :
  fst (value_setter p v s) = Raise e ->
  switch_to_output p v s = value_setter p v s /\
  _configuration (snd (switch_to_output p v s)) = _configuration s.
Proof.
  intros He.
  assert (Heq : switch_to_output p v s = value_setter p v s).
  { rewrite switch_to_output_step.
    destruct (value_setter p v s) as [[u|e'] s1]; [discriminate|reflexivity]. }
  split; [exact Heq|].
  rewrite Heq. apply value_setter_keeps_configuration.
Qed.

(** *** Pin numbers outside [0,7] *)

(** X11: on a handle whose pin number is negative, the setters and the
    cached getters raise ValueError (a negative shift count) and leave the
    cache, the device and the bus untouched; the [value] getter still
    issues its read of the INPUT register first and raises ValueError only
    if that read succeeded. *)
Theorem negative_pin_raises s p v :
  _pin p < 0 ->
  value_setter p v s = (Raise ValueError, s) /\
  switch_to_output p v s = (Raise ValueError, s) /\
  switch_to_input p s = (Raise ValueError, s) /\
  direction_setter p INPUT s = (Raise ValueError, s) /\
  direction_setter p OUTPUT s = (Raise ValueError, s) /\
  direction p s = (Raise ValueError, s) /\
  invert_polarity p s = (Raise ValueError, s) /\
  invert_polarity_setter p v s = (Raise ValueError, s) /\
  value p s =
    (match snd (write_then_readinto (i2c_device s)
                  [_TCA9534_REGISTER_INPUT_PORT]) with
     | Ok _ => Raise ValueError
     | Raise e => Raise e
     end,
     with_bus s
       (fst (write_then_readinto (i2c_device s) [_TCA9534_REGISTER_INPUT_PORT]))
       (I2CWriteThenReadinto [_TCA9534_REGISTER_INPUT_PORT]
          (snd (write_then_readinto (i2c_device s)
                  [_TCA9534_REGISTER_INPUT_PORT])))).
Proof.
  intros Hn.
  assert (Hv : value_setter p v s = (Raise ValueError, s)).
  { unfold value_setter, bind, getitem_output, lift.
    rewrite py_lshift_neg by lia. destruct v; reflexivity. }
  repeat split.
  - exact Hv.
  - rewrite switch_to_output_step, Hv. reflexivity.
  - unfold switch_to_input, bind, getitem_configuration, lift.
    rewrite py_lshift_neg by lia. reflexivity.
  - unfold direction_setter, bind, getitem_configuration, lift.
    rewrite py_lshift_neg by lia. reflexivity.
  - unfold direction_setter, bind, getitem_configuration, lift.
    rewrite py_lshift_neg by lia. reflexivity.
  - unfold direction, bind, getitem_configuration, lift.
    rewrite py_lshift_neg by lia. reflexivity.
  - unfold invert_polarity, bind, getitem_inversion, lift.
    rewrite py_lshift_neg by lia. reflexivity.
  - unfold invert_polarity_setter, bind, get_inv, getitem_inversion, lift.
    rewrite py_lshift_neg by lia. destruct v; reflexivity.
  - unfold value, bind. rewrite read_gpio_step.
    destruct (snd (write_then_readinto _ _)) as [b|e]; [|reflexivity].
    unfold lift. rewrite py_lshift_neg by lia. reflexivity.
Qed.




(** *** The cache shadows the driver's own traffic *)

Lemma last_traffic_app reg l t v0 :
  last_traffic reg (l ++ [t]) v0 =
  match traffic_on reg t with
  | Some v => v
  | None => last_traffic reg l v0
  end.
Proof.
  unfold last_traffic. rewrite fold_left_app. reflexivity.
Qed.

Lemma preserves_ret {A} (P : TCA9534 D -> Prop) (a : A) : preserves P (ret a).
Proof. intros s Hs; exact Hs. Qed.

Lemma preserves_lift {A} (P : TCA9534 D -> Prop) (r : result A) :
  preserves P (lift r).
Proof. intros s Hs; exact Hs. Qed.

Lemma preserves_raise {A} (P : TCA9534 D -> Prop) (e : exn) :
  preserves (A := A) P (raise e).
Proof. intros s Hs; exact Hs. Qed.

Lemma preserves_bind {A B} (P : TCA9534 D -> Prop)
  (m : Exec (TCA9534 D) A) (k : A -> Exec (TCA9534 D) B) :
  preserves P m -> (forall a, preserves P (k a)) -> preserves P (bind m k).
Proof.
  intros Hm Hk s Hs. unfold bind.
  specialize (Hm s Hs).
  destruct (m s) as [[a|e] s']; cbn [snd] in *.
  - apply Hk, Hm.
  - exact Hm.
Qed.

Lemma preserves_getitem_output (P : TCA9534 D -> Prop) :
  preserves P getitem_output.
Proof. intros s Hs; exact Hs. Qed.

Lemma preserves_getitem_inversion (P : TCA9534 D -> Prop) :
  preserves P getitem_inversion.
Proof. intros s Hs; exact Hs. Qed.

Lemma preserves_getitem_configuration (P : TCA9534 D -> Prop) :
  preserves P getitem_configuration.
Proof. intros s Hs; exact Hs. Qed.

Lemma preserves_getattr (P : TCA9534 D -> Prop) name :
  preserves P (getattr name).
Proof.
  intros s Hs. unfold getattr.
  repeat match goal with |- context [if ?c then _ else _] => destruct c end;
    exact Hs.
Qed.

Lemma coherent_write_gpio val : preserves cache_coherent (write_gpio (D := D) val).
Proof.
  intros s (Ho & Hi & Hc). rewrite write_gpio_step.
  unfold cache_coherent.
  cbn [snd with_bus with_output _output _inversion _configuration log].
  rewrite !last_traffic_app. cbn [traffic_on].
  repeat split; assumption.
Qed.

Lemma coherent_set_iodir val : preserves cache_coherent (set_iodir (D := D) val).
Proof.
  intros s (Ho & Hi & Hc). rewrite set_iodir_step.
  unfold cache_coherent.
  cbn [snd with_bus with_configuration _output _inversion _configuration log].
  rewrite !last_traffic_app. cbn [traffic_on].
  repeat split; assumption.
Qed.

Lemma coherent_set_inv val : preserves cache_coherent (set_inv (D := D) val).
Proof.
  intros s (Ho & Hi & Hc). rewrite set_inv_step.
  unfold cache_coherent.
  cbn [snd with_bus with_inversion _output _inversion _configuration log].
  rewrite !last_traffic_app. cbn [traffic_on].
  repeat split; assumption.
Qed.

Lemma coherent_read_gpio : preserves cache_coherent (read_gpio (D := D)).
Proof.
  intros s (Ho & Hi & Hc). rewrite read_gpio_step.
  unfold cache_coherent.
  cbn [snd with_bus _output _inversion _configuration log].
  rewrite !last_traffic_app.
  destruct (snd (write_then_readinto _ _)) as [b|e]; cbn [traffic_on];
    repeat split; assumption.
Qed.

Create HintDb coherent discriminated.
Hint Resolve preserves_ret preserves_lift preserves_raise
  preserves_getitem_output preserves_getitem_inversion
  preserves_getitem_configuration preserves_getattr
  coherent_write_gpio coherent_set_iodir coherent_set_inv
  coherent_read_gpio : coherent.

Ltac coherent :=
  repeat first
    [ solve [ auto with coherent ]
    | match goal with
      | |- preserves _ (if ?c then _ else _) => destruct c
      | |- preserves _ (match ?d with INPUT => _ | _ => _ end) => destruct d
      end
    | apply preserves_bind; [ | intro ] ].

Lemma exec_coherent (c : call) :
  forall s, cache_coherent s -> cache_coherent (exec c s).
Proof.
  destruct c; cbn [exec];
    match goal with |- forall s, cache_coherent s -> cache_coherent (snd (?m s)) =>
      change (preserves cache_coherent m) end;
    unfold get_iodir, get_inv, get_pin, write_pin, read_pin,
      switch_to_output, switch_to_input, value, value_setter, direction,
      direction_setter, invert_polarity, invert_polarity_setter;
    coherent.
Qed.

Lemma exec_all_coherent (cs : list call) :
  forall s, cache_coherent s -> cache_coherent (exec_all cs s).
Proof.
  unfold exec_all.
  induction cs as [|c cs IH]; intros s Hs; cbn [fold_left].
  - exact Hs.
  - apply IH, exec_coherent, Hs.
Qed.

Ltac unfold_init :=
  unfold __init__, bind, lift, ret, bytearray, i2c_write,
    i2c_write_then_readinto;
  cbn [forallb];
  change (is_byte _TCA9534_REGISTER_CONFIGURATION) with true;
  change (is_byte _TCA9534_REGISTER_INVERSION) with true;
  change (is_byte _TCA9534_REGISTER_OUTPUT_PORT) with true;
  change (is_byte 0xFF) with true;
  change (is_byte 0x00) with true;
  cbn [andb].

Ltac next_transaction :=
  cbn [i2c_device with_bus with_output with_inversion with_configuration
       log fst snd];
  match goal with
  | |- context [write ?d ?b] =>
      destruct (write d b) as [? [[]|?]]
  | |- context [write_then_readinto ?d ?b] =>
      destruct (write_then_readinto d b) as [? [?|?]]
  end;
  cbn [i2c_device with_bus with_output with_inversion with_configuration
       log fst snd].

Lemma init_coherent (d : D) (reset : bool) :
  fst (__init__ d reset) = Ok tt -> cache_coherent (snd (__init__ d reset)).
Proof.
  unfold_init.
  destruct reset.
  - do 6 (next_transaction; [|discriminate]).
    intros _. unfold cache_coherent, last_traffic. cbn. repeat split.
  - do 3 (next_transaction; [|discriminate]).
    intros _. unfold cache_coherent, last_traffic. cbn. repeat split.
Qed.

(** X13: once construction has succeeded, after any sequence of calls on
    the expander and its pin handles each cached register holds the byte
    of the driver's most recent traffic on the device register it shadows:
    the byte last sent in a write to it (acknowledged or not), or the byte
    read back from it at construction if no write followed. *)
Theorem cache_shadows_last_traffic (d : D) (reset : bool) (cs : list call) :
  fst (__init__ d reset) = Ok tt ->
  cache_coherent (exec_all cs (snd (__init__ d reset))).
Proof.
  intros Hok. apply exec_all_coherent, init_coherent, Hok.
Qed.

(** *** Construction on a failing bus *)



(** *** Each setter touches one cached register *)

Lemma frame_write_gpio s0 val :
  preserves (same_inversion s0) (write_gpio (D := D) val) /\
  preserves (same_configuration s0) (write_gpio (D := D) val).
Proof.
  split; intros s Hs; rewrite write_gpio_step; exact Hs.
Qed.

Lemma frame_set_iodir s0 val :
  preserves (same_output s0) (set_iodir (D := D) val) /\
  preserves (same_inversion s0) (set_iodir (D := D) val).
Proof.
  split; intros s Hs; rewrite set_iodir_step; exact Hs.
Qed.

Lemma frame_set_inv s0 val :
  preserves (same_output s0) (set_inv (D := D) val) /\
  preserves (same_configuration s0) (set_inv (D := D) val).
Proof.
  split; intros s Hs; rewrite set_inv_step; exact Hs.
Qed.

Lemma frame_write_gpio_inversion s0 val :
  preserves (same_inversion s0) (write_gpio (D := D) val).
Proof. apply frame_write_gpio. Qed.

Lemma frame_write_gpio_configuration s0 val :
  preserves (same_configuration s0) (write_gpio (D := D) val).
Proof. apply frame_write_gpio. Qed.

Lemma frame_set_iodir_output s0 val :
  preserves (same_output s0) (set_iodir (D := D) val).
Proof. apply frame_set_iodir. Qed.

Lemma frame_set_iodir_inversion s0 val :
  preserves (same_inversion s0) (set_iodir (D := D) val).
Proof. apply frame_set_iodir. Qed.

Lemma frame_set_inv_output s0 val :
  preserves (same_output s0) (set_inv (D := D) val).
Proof. apply frame_set_inv. Qed.

Lemma frame_set_inv_configuration s0 val :
  preserves (same_configuration s0) (set_inv (D := D) val).
Proof. apply frame_set_inv. Qed.

Hint Resolve frame_write_gpio_inversion frame_write_gpio_configuration
  frame_set_iodir_output frame_set_iodir_inversion
  frame_set_inv_output frame_set_inv_configuration : coherent.

Ltac frame m :=
  match goal with
  | |- ?f (snd (m ?s)) = ?f ?s =>
      let P := match f with
               | @_output _ => constr:(same_output s)
               | @_inversion _ => constr:(same_inversion s)
               | @_configuration _ => constr:(same_configuration s)
               end in
      let Hfr := fresh "Hfr" in
      assert (Hfr : preserves P m);
      [ unfold switch_to_output, switch_to_input, value_setter,
          direction_setter, invert_polarity_setter, get_inv;
        coherent
      | apply Hfr; reflexivity ]
  end.

(** X15: for every pin number (in range or not), value and direction,
    and whether or not the bus fails: the [value] setter leaves the cached
    inversion and configuration bytes as they are, the [direction] setter
    and [switch_to_input] leave the cached output and inversion bytes, the
    [invert_polarity] setter leaves the cached output and configuration
    bytes, and [switch_to_output] leaves the cached inversion byte. *)
Theorem pin_setters_touch_their_register s p v d :
  (_inversion (snd (value_setter p v s)) = _inversion s /\
   _configuration (snd (value_setter p v s)) = _configuration s) /\
  (_output (snd (direction_setter p d s)) = _output s /\
   _inversion (snd (direction_setter p d s)) = _inversion s) /\
  (_output (snd (switch_to_input p s)) = _output s /\
   _inversion (snd (switch_to_input p s)) = _inversion s) /\
  (_output (snd (invert_polarity_setter p v s)) = _output s /\
   _configuration (snd (invert_polarity_setter p v s)) = _configuration s) /\
  _inversion (snd (switch_to_output p v s)) = _inversion s.
Proof.
  repeat split.
  - frame (value_setter (D := D) p v).
  - frame (value_setter (D := D) p v).
  - frame (direction_setter (D := D) p d).
  - frame (direction_setter (D := D) p d).
  - frame (switch_to_input (D := D) p).
  - frame (switch_to_input (D := D) p).
  - frame (invert_polarity_setter (D := D) p v).
  - frame (invert_polarity_setter (D := D) p v).
  - frame (switch_to_output (D := D) p v).
Qed.

(** *** What the driver sends *)

Lemma traffic_with_bus s d t :
  traffic_ok s -> register_transaction t = true -> traffic_ok (with_bus s d t).
Proof.
  unfold traffic_ok. cbn [with_bus log]. intros Hs Ht.
  apply Forall_app. split; [exact Hs|]. constructor; [exact Ht|constructor].
Qed.

Lemma traffic_write_gpio val : preserves traffic_ok (write_gpio (D := D) val).
Proof.
  intros s Hs. rewrite write_gpio_step.
  apply traffic_with_bus; [exact Hs|].
  cbn [register_transaction]. rewrite is_byte_land_0xFF. reflexivity.
Qed.

Lemma traffic_set_iodir val : preserves traffic_ok (set_iodir (D := D) val).
Proof.
  intros s Hs. rewrite set_iodir_step.
  apply traffic_with_bus; [exact Hs|].
  cbn [register_transaction]. rewrite is_byte_land_0xFF. reflexivity.
Qed.

Lemma traffic_set_inv val : preserves traffic_ok (set_inv (D := D) val).
Proof.
  intros s Hs. rewrite set_inv_step.
  apply traffic_with_bus; [exact Hs|].
  cbn [register_transaction]. rewrite is_byte_land_0xFF. reflexivity.
Qed.

Lemma traffic_read_gpio : preserves traffic_ok (read_gpio (D := D)).
Proof.
  intros s Hs. rewrite read_gpio_step.
  apply traffic_with_bus; [exact Hs|reflexivity].
Qed.

Hint Resolve traffic_write_gpio traffic_set_iodir traffic_set_inv
  traffic_read_gpio : coherent.

Lemma exec_traffic_ok (c : call) :
  forall s, traffic_ok s -> traffic_ok (exec c s).
Proof.
  destruct c; cbn [exec];
    match goal with |- forall s, traffic_ok s -> traffic_ok (snd (?m s)) =>
      change (preserves traffic_ok m) end;
    unfold get_iodir, get_inv, get_pin, write_pin, read_pin,
      switch_to_output, switch_to_input, value, value_setter, direction,
      direction_setter, invert_polarity, invert_polarity_setter;
    coherent.
Qed.

Lemma init_traffic_ok (d : D) (reset : bool) :
  traffic_ok (snd (__init__ d reset)).
Proof.
  unfold traffic_ok.
  unfold_init.
  destruct reset.
  - do 6 (next_transaction; [|repeat constructor]).
    cbn [log snd app]. repeat constructor.
  - do 3 (next_transaction; [|repeat constructor]).
    cbn [log snd app]. repeat constructor.
Qed.

(** X16: whatever the device answers, every transaction the driver issues
    during construction and during any sequence of calls is a write of the
    register address followed by one byte in [0,255] to OUTPUT, INVERSION
    or CONFIGURATION, or a one-byte read after the address of one of the
    four registers; the read-only INPUT register is never written. *)
Theorem driver_sends_register_transactions (d : D) (reset : bool)
  (cs : list call) :
  Forall (fun t => register_transaction t = true)
    (log (exec_all cs (snd (__init__ d reset)))).
Proof.
  change (traffic_ok (exec_all cs (snd (__init__ d reset)))).
  generalize (init_traffic_ok d reset).
  generalize (snd (__init__ d reset)).
  unfold exec_all.
  induction cs as [|c cs IH]; intros s Hs; cbn [fold_left].
  - exact Hs.
  - apply IH, exec_traffic_ok, Hs.
Qed.

(** *** Writes to different pins *)

Lemma value_setter_output s p v :
  _output (snd (value_setter p v s)) =
  if _pin p <? 0 then _output s
  else Z.land (if v then Z.lor (_output s) (Z.shiftl 1 (_pin p))
               else Z.land (_output s) (Z.lnot (Z.shiftl 1 (_pin p)))) 0xFF.
Proof.
  destruct (Z.ltb_spec (_pin p) 0) as [Hn|Hp].
  - unfold value_setter, bind, getitem_output, lift.
    rewrite py_lshift_neg by lia. destruct v; reflexivity.
  - rewrite value_setter_step, write_gpio_step by lia. reflexivity.
Qed.

Lemma set_or_clear_commute (o a b : Z) (v w : bool) :
  0 <= a -> 0 <= b -> a <> b ->
  Z.land
    (if w then Z.lor (Z.land (if v then Z.lor o (Z.shiftl 1 a)
                              else Z.land o (Z.lnot (Z.shiftl 1 a))) 0xFF)
                 (Z.shiftl 1 b)
     else Z.land (Z.land (if v then Z.lor o (Z.shiftl 1 a)
                          else Z.land o (Z.lnot (Z.shiftl 1 a))) 0xFF)
            (Z.lnot (Z.shiftl 1 b))) 0xFF =
  Z.land
    (if v then Z.lor (Z.land (if w then Z.lor o (Z.shiftl 1 b)
                              else Z.land o (Z.lnot (Z.shiftl 1 b))) 0xFF)
                 (Z.shiftl 1 a)
     else Z.land (Z.land (if w then Z.lor o (Z.shiftl 1 b)
                          else Z.land o (Z.lnot (Z.shiftl 1 b))) 0xFF)
            (Z.lnot (Z.shiftl 1 a))) 0xFF.
Proof.
  intros Ha Hb Hab. apply Z.bits_inj'; intros n Hn.
  destruct (Z.ltb_spec n 8) as [Hlt|Hge].
  - rewrite !testbit_land_0xFF by lia.
    destruct v, w;
      repeat first [ rewrite testbit_land_0xFF by lia
                   | rewrite testbit_shiftl_1 by lia
                   | rewrite Z.lor_spec
                   | rewrite Z.lnot_spec by lia
                   | rewrite Z.land_spec ];
      destruct (Z.eqb_spec n a), (Z.eqb_spec n b);
      try (exfalso; lia);
      destruct (Z.testbit o n); reflexivity.
  - rewrite !(Z.land_spec _ 0xFF), (testbit_byte_high 0xFF n) by lia.
    rewrite !andb_false_r. reflexivity.
Qed.

(** X17: [value] setters on two different pins commute on the cache: in
    either order the cached output byte ends up the same, for every pair
    of distinct pin numbers and every pair of values, whether or not the
    bus writes succeed. *)
Theorem value_setters_commute s p q v w :
  _pin p <> _pin q ->
  _output (snd (value_setter q w (snd (value_setter p v s)))) =
  _output (snd (value_setter p v (snd (value_setter q w s)))).
Proof.
  intros Hne.
  rewrite !value_setter_output.
  destruct (Z.ltb_spec (_pin p) 0) as [Hp|Hp];
    destruct (Z.ltb_spec (_pin q) 0) as [Hq|Hq]; try reflexivity.
  apply set_or_clear_commute; lia.
Qed.

(** *** What the direction setter and the polarity getter store and return *)

(** X18: for a pin in [0,7], the [direction] setter given OUTPUT caches
    (and sends) a configuration byte that is 0 when the pin is 0, and
    otherwise the old bit of the pin moved to bit 0: bit [pin] is cleared,
    and so is every other bit except possibly bit 0. *)
Theorem direction_output_stores_old_bit s p :
  0 <= _pin p <= 7 ->
  _configuration (snd (direction_setter p OUTPUT s)) =
    (if _pin p =? 0 then 0
     else Z.b2z (Z.testbit (_configuration s) (_pin p))) /\
  log (snd (direction_setter p OUTPUT s)) =
    log s ++ [I2CWrite [_TCA9534_REGISTER_CONFIGURATION;
                        _configuration (snd (direction_setter p OUTPUT s))]
                (fst (direction_setter p OUTPUT s))].
Proof.
  intros Hp. split.
  - apply direction_setter_output_stores, Hp.
  - rewrite (proj2 (direction_setter_step s p ltac:(lia))), set_iodir_step.
    reflexivity.
Qed.

(** X19: for a pin in [0,7], the [invert_polarity] getter returns bit 0
    of the cached inversion mask, as 0 or 1, whatever the pin, and leaves
    the object as it is; for pin 0 that is the pin's own bit. *)
Theorem invert_polarity_getter_reads_bit0 s p :
  0 <= _pin p <= 7 ->
  invert_polarity p s = (Ok (Z.b2z (Z.testbit (_inversion s) 0)), s).
Proof.
  intros Hp.
  unfold invert_polarity, bind, getitem_inversion, lift, ret.
  rewrite py_lshift_nonneg, py_rshift_nonneg by lia.
  rewrite shift_there_and_back by lia.
  rewrite land_1_b2z, Z.bit0_odd.
  reflexivity.
Qed.

End DriverExtras.

(** ** The further properties on a scripted device *)

Lemma read_pin_reads_input_witness :
  0 <= 5 /\
  fst (read_pin 5 (fresh [Ok x20])) = Ok 1 /\
  log (snd (read_pin 5 (fresh [Ok x20]))) =
    log (fresh [Ok x20])
    ++ [I2CWriteThenReadinto [_TCA9534_REGISTER_INPUT_PORT] (Ok x20)].
Proof.
  split; [lia|].
  destruct (read_pin_reads_input (fresh [Ok x20]) 5) as (Hr & Hl & _); [lia|].
  split; [exact Hr | exact Hl].
Defined.


Lemma invert_polarity_setter_sets_one_bit_witness :
  0 <= _pin {| _pin := 1 |} <= 7 /\
  Z.testbit
    (_inversion (snd (invert_polarity_setter {| _pin := 1 |} true (fresh [Ok x00]))))
    (_pin {| _pin := 1 |}) = true /\
  _inversion (snd (invert_polarity_setter {| _pin := 1 |} true (fresh [Ok x00])))
  = 0x02.
Proof.
  split; [cbn; lia|].
  split; [|reflexivity].
  apply (invert_polarity_setter_sets_one_bit (fresh [Ok x00]) {| _pin := 1 |} true).
  cbn; lia.
Defined.


Lemma direction_setter_then_direction_witness :
  0 <= _pin {| _pin := 3 |} <= 7 /\
  OUTPUT <> NotADirection /\
  fst (direction {| _pin := 3 |}
         (snd (direction_setter {| _pin := 3 |} OUTPUT (fresh [Ok x00]))))
  = Ok OUTPUT.
Proof.
  split; [cbn; lia|].
  split; [discriminate|].
  apply (direction_setter_then_direction (fresh [Ok x00]) {| _pin := 3 |} OUTPUT).
  - cbn; lia.
  - discriminate.
Defined.

Lemma switch_to_output_on_success_witness :
  0 <= _pin {| _pin := 3 |} <= 7 /\
  fst (switch_to_output {| _pin := 3 |} false (fresh [Ok x00; Ok x00])) = Ok tt /\
  Z.testbit
    (_output (snd (switch_to_output {| _pin := 3 |} false (fresh [Ok x00; Ok x00]))))
    (_pin {| _pin := 3 |}) = false /\
  fst (direction {| _pin := 3 |}
         (snd (switch_to_output {| _pin := 3 |} false (fresh [Ok x00; Ok x00]))))
  = Ok OUTPUT.
Proof.
  split; [cbn; lia|].
  split; [reflexivity|].
  destruct (switch_to_output_on_success (fresh [Ok x00; Ok x00])
              {| _pin := 3 |} false) as (Hb & _ & Hd & _).
  - cbn; lia.
  - reflexivity.
  - split; [exact Hb | exact Hd].
Defined.

Lemma switch_to_output_latch_failure_witness :
  fst (value_setter {| _pin := 3 |} false (fresh [])) = Raise OSError /\
  switch_to_output {| _pin := 3 |} false (fresh [])
  = value_setter {| _pin := 3 |} false (fresh []) /\
  _configuration (snd (switch_to_output {| _pin := 3 |} false (fresh [])))
  = _configuration (fresh []).
Proof.
  split; [reflexivity|].
  apply (switch_to_output_latch_failure (fresh []) {| _pin := 3 |} false OSError).
  reflexivity.
Defined.

Lemma negative_pin_raises_witness :
  _pin {| _pin := -1 |} < 0 /\
  value_setter {| _pin := -1 |} true (fresh [Ok x00])
  = (Raise ValueError, fresh [Ok x00]) /\
  fst (value {| _pin := -1 |} (fresh [Ok x00])) = Raise ValueError.
Proof.
  split; [cbn; lia|].
  destruct (negative_pin_raises (fresh [Ok x00]) {| _pin := -1 |} true)
    as (Hv & _); [cbn; lia|].
  split; [exact Hv | reflexivity].
Defined.


Lemma cache_shadows_last_traffic_witness :
  fst (__init__ (reset_script [Ok x00; Raise OSError]) true) = Ok tt /\
  cache_coherent
    (exec_all [Call_write_gpio 0x0F; Call_set_inv 0x81]
       (snd (__init__ (reset_script [Ok x00; Raise OSError]) true))).
Proof.
  split; [reflexivity|].
  apply (cache_shadows_last_traffic (reset_script [Ok x00; Raise OSError]) true
           [Call_write_gpio 0x0F; Call_set_inv 0x81]).
  reflexivity.
Defined.


Lemma value_setters_commute_witness :
  _pin {| _pin := 1 |} <> _pin {| _pin := 2 |} /\
  _output (snd (value_setter {| _pin := 2 |} false
                  (snd (value_setter {| _pin := 1 |} false
                          (fresh [Ok x00; Raise OSError]))))) =
  _output (snd (value_setter {| _pin := 1 |} false
                  (snd (value_setter {| _pin := 2 |} false
                          (fresh [Ok x00; Raise OSError]))))).
Proof.
  split; [cbn; lia|].
  apply (value_setters_commute (fresh [Ok x00; Raise OSError])
           {| _pin := 1 |} {| _pin := 2 |} false false).
  cbn; lia.
Defined.

Lemma direction_output_stores_old_bit_witness :
  0 <= _pin {| _pin := 3 |} <= 7 /\
  _configuration (snd (direction_setter {| _pin := 3 |} OUTPUT (fresh [Ok x00])))
  = 0x01 /\
  log (snd (direction_setter {| _pin := 3 |} OUTPUT (fresh [Ok x00]))) =
    log (fresh [Ok x00])
    ++ [I2CWrite [_TCA9534_REGISTER_CONFIGURATION; 0x01] (Ok tt)].
Proof.
  split; [cbn; lia|].
  destruct (direction_output_stores_old_bit (fresh [Ok x00]) {| _pin := 3 |})
    as (Hc & Hl); [cbn; lia|].
  split; [exact Hc | exact Hl].
Defined.

Lemma invert_polarity_getter_reads_bit0_witness :
  0 <= _pin {| _pin := 1 |} <= 7 /\
  invert_polarity {| _pin := 1 |} (snd (set_inv 0x03 (fresh [Ok x00])))
  = (Ok 1, snd (set_inv 0x03 (fresh [Ok x00]))).
Proof.
  split; [cbn; lia|].
  assert (Hp : 0 <= _pin {| _pin := 1 |} <= 7) by (cbn; lia).
  exact (invert_polarity_getter_reads_bit0
           (snd (set_inv 0x03 (fresh [Ok x00]))) {| _pin := 1 |} Hp).
Defined.
